(** * 3D protein reconstruction notebook: the data pipeline, verified

    A shallow embedding of [protein.ipynb]: the PDB parser [parse_pdb], the
    view synthesizer [generate_views], the data preparation and the split of
    [main] / [train_model], and the writer [save_pdb], together with the
    parts of Python and NumPy they call.

    NumPy arrays are modelled as NumPy has them: a header (buffer, offset,
    shape, strides) over a flat buffer that lives in a store, so that views
    which share a buffer ([np.flip]) and copies ([np.random.permutation],
    [np.vstack], [np.tile]) are told apart.  Python floats are IEEE binary64
    values ([spec_float] at precision 53). *)

From Stdlib Require Import ZArith Permutation Ascii.
From Corelib Require Import SpecFloat.
From stdpp Require Import gmap strings list fin_maps sorting.

Open Scope Z_scope.

(** ** Values, exceptions and the world *)

(** A Python [float] / NumPy [float64]. *)
Definition float64 : Type := spec_float.

(** The exceptions the modelled code can raise; [IsADirectoryError],
    [PermissionError] and [OSError] come from the operating system when a
    file is opened.  [Stuck] is not a Python exception: it marks a read
    through a header whose buffer is missing or too short, which NumPy's
    memory safety excludes; no array made by the functions below reads so. *)
Inductive exn : Type :=
  | ValueError
  | IndexError
  | AxisError
  | FileNotFoundError
  | IsADirectoryError
  | PermissionError
  | OSError
  | Stuck.

Inductive outcome (A : Type) : Type :=
  | Return (a : A)
  | Raise (e : exn).
Arguments Return {A} a.
Arguments Raise {A} e.

(** A random generator in some state, given as the draw it answers to the
    last of a sequence of requests, each request being the bound asked for. *)
Definition rng : Type := list nat → nat.

(** The state a run threads: the store of array buffers, the file system
    (the text read from each path, decoded and with its line ends already
    translated to the newline character), the state of the global NumPy
    random source, and the paths that do not open for writing, each with the
    exception the open raises there ([FileNotFoundError] for a missing
    directory, [IsADirectoryError] for a directory, [PermissionError],
    [ValueError] for a path with a null character, [OSError] otherwise). *)
Record world : Type := World {
  heap : gmap positive (list float64);
  files : gmap string string;
  np_random : rng;
  unwritable : gmap string exn
}.

Definition set_heap (h : gmap positive (list float64)) (w : world) : world :=
  World h (files w) (np_random w) (unwritable w).
Definition set_files (f : gmap string string) (w : world) : world :=
  World (heap w) f (np_random w) (unwritable w).
Definition set_np_random (r : rng) (w : world) : world :=
  World (heap w) (files w) r (unwritable w).

(** State and exception monad; an exception keeps the state reached. *)
Definition M (A : Type) : Type := world → outcome A * world.

Definition ret {A} (a : A) : M A := fun w => (Return a, w).
Definition raise {A} (e : exn) : M A := fun w => (Raise e, w).
Definition bind {A B} (c : M A) (k : A → M B) : M B := fun w =>
  match c w with
  | (Return a, w') => k a w'
  | (Raise e, w') => (Raise e, w')
  end.

Global Instance M_ret : MRet M := @ret.
Global Instance M_bind : MBind M := fun A B k c => bind c k.

(** Lift a read: [None] (a faulty header) is [Stuck]. *)
Definition lift {A} (o : option A) : M A :=
  match o with Some a => mret a | None => raise Stuck end.

Definition get_heap : M (gmap positive (list float64)) := fun w => (Return (heap w), w).

(** ** NumPy arrays *)

(** Shape and strides (in elements, not bytes) of an array of one or two
    axes, the arrays [parse_pdb] and the calls of [main] make; arrays of no
    axis or of three and more are outside the embedding, and nothing below is
    stated of them. *)
Inductive layout : Type :=
  | Dim1 (n : nat) (s : Z)
  | Dim2 (n m : nat) (s0 s1 : Z).

Record ndarray : Type := NdArray {
  base : positive;
  offset : Z;
  lay : layout
}.

(** [a.shape] *)
Definition shape (a : ndarray) : list nat :=
  match lay a with Dim1 n _ => [n] | Dim2 n m _ _ => [n; m] end.

(** [len(a)] *)
Definition len (a : ndarray) : nat :=
  match lay a with Dim1 n _ => n | Dim2 n _ _ _ => n end.

(** The nested lists an array stands for. *)
Inductive nested : Type :=
  | Items (xs : list float64)
  | Rows (rs : list (list float64)).

(** The element [k] places into a buffer; a place outside it is a fault. *)
Definition buffer_get (buf : list float64) (k : Z) : option float64 :=
  if decide (0 ≤ k) then buf !! Z.to_nat k else None.

(** Element [i] of a 1-D view and element [(i, j)] of a 2-D view. *)
Definition item1 (buf : list float64) (off s : Z) (i : nat) : option float64 :=
  buffer_get buf (off + Z.of_nat i * s).

Definition item2 (buf : list float64) (off s0 s1 : Z) (i j : nat) : option float64 :=
  buffer_get buf (off + Z.of_nat i * s0 + Z.of_nat j * s1).

Definition view_of (buf : list float64) (off : Z) (ly : layout) : option nested :=
  match ly with
  | Dim1 n s => Items <$> mapM (item1 buf off s) (seq 0 n)
  | Dim2 n m s0 s1 =>
      Rows <$> mapM (fun i => mapM (item2 buf off s0 s1 i) (seq 0 m)) (seq 0 n)
  end.

(** [a.tolist()] in store [h]. *)
Definition tolist (h : gmap positive (list float64)) (a : ndarray) : option nested :=
  buf ← h !! base a; view_of buf (offset a) (lay a).

(** The rows an iteration over the first axis yields, a 1-D array counting as
    a single row (NumPy's [atleast_2d]). *)
Definition rows_2d (v : nested) : list (list float64) :=
  match v with Items xs => [xs] | Rows rs => rs end.

(** Allocation of a fresh buffer. *)
Definition alloc (data : list float64) : M positive := fun w =>
  let l := fresh (dom (heap w)) in
  (Return l, set_heap (<[l := data]> (heap w)) w).

(** A fresh C-contiguous array of [n] rows of [m] columns. *)
Definition new_2d (n m : nat) (rows : list (list float64)) : M ndarray :=
  l ← alloc (concat rows);
  mret (NdArray l 0 (Dim2 n m (Z.of_nat m) 1)).

Definition new_1d (xs : list float64) : M ndarray :=
  l ← alloc xs;
  mret (NdArray l 0 (Dim1 (length xs) 1)).

(** [np.array(coordinates)] for a Python list of lists of floats: the empty
    list gives an array of shape [(0,)]; rows of one length [m] give shape
    [(N, m)]; ragged rows are refused. *)
Definition np_array (coordinates : list (list float64)) : M ndarray :=
  match coordinates with
  | [] => new_1d []
  | r :: _ =>
      if forallb (fun r' => Nat.eqb (length r') (length r)) coordinates
      then new_2d (length coordinates) (length r) coordinates
      else raise ValueError
  end.

(** [np.flip(a, axis)]: a view on the same buffer with the stride of [axis]
    negated; an axis the array does not have is an [AxisError]. *)
Definition np_flip (a : ndarray) (axis : nat) : M ndarray :=
  match lay a, axis with
  | Dim1 n s, 0%nat =>
      mret (NdArray (base a) (offset a + Z.of_nat (n - 1) * s) (Dim1 n (- s)))
  | Dim2 n m s0 s1, 0%nat =>
      mret (NdArray (base a) (offset a + Z.of_nat (n - 1) * s0) (Dim2 n m (- s0) s1))
  | Dim2 n m s0 s1, 1%nat =>
      mret (NdArray (base a) (offset a + Z.of_nat (m - 1) * s1) (Dim2 n m s0 (- s1)))
  | _, _ => raise AxisError
  end.

(** ** The random source *)

(** [random_interval(max)]: one draw in [0, max] and the generator after it.
    Every value of the range is the answer of some generator. *)
Definition random_interval (g : rng) (max : nat) : nat * rng :=
  ((g [max] `mod` S max)%nat, fun later => g (max :: later)).

(** [x[i], x[j] = x[j], x[i]] *)
Definition swap {A} (x : list A) (i j : nat) : list A :=
  match x !! i, x !! j with
  | Some xi, Some xj => <[j := xi]> (<[i := xj]> x)
  | _, _ => x
  end.

(** The loop of [RandomState.shuffle]:
    [for i in reversed(range(1, n)): j = random_interval(i); swap x[i], x[j]],
    entered here at index [i]. *)
Fixpoint shuffle_from {A} (i : nat) (x : list A) (g : rng) : list A * rng :=
  match i with
  | O => (x, g)
  | S i' => let '(j, g') := random_interval g i in shuffle_from i' (swap x i j) g'
  end.

Definition shuffle {A} (x : list A) (g : rng) : list A * rng :=
  shuffle_from (length x - 1) x g.

(** The functions of [np.random] run on the global generator. *)
Definition np_random_run {A} (f : rng → A * rng) : M A := fun w =>
  let '(a, g') := f (np_random w) in (Return a, set_np_random g' w).

(** [a[idx]] on the first axis of a 2-D value. *)
Definition take_rows {A} (rows : list A) (idx : list nat) : list A :=
  omap (fun k => rows !! k) idx.

(** [np.random.permutation(a)] for an array: a 1-D array is copied and the
    copy shuffled; otherwise [idx = arange(len(a))] is shuffled and [a[idx]]
    returned, a fresh array in both cases. *)
Definition np_random_permutation (a : ndarray) : M ndarray :=
  h ← get_heap;
  v ← lift (tolist h a);
  match v with
  | Items xs =>
      xs' ← np_random_run (shuffle xs);
      new_1d xs'
  | Rows rs =>
      idx ← np_random_run (shuffle (seq 0 (length rs)));
      match lay a with
      | Dim2 n m _ _ => new_2d n m (take_rows rs idx)
      | Dim1 _ _ => raise Stuck
      end
  end.

(** ** View synthesizer *)

(** [generate_views], cell 4 of the notebook. *)
Definition generate_views (coordinates : ndarray) : M (ndarray * ndarray * ndarray) :=
  let view1 := coordinates in
  view2 ← np_random_permutation coordinates;
  view3 ← np_flip coordinates 1;
  mret (view1, view2, view3).

(** ** Stacking and tiling *)

(** Number of columns of an array seen as 2-D ([atleast_2d]). *)
Definition ncols (a : ndarray) : nat :=
  match lay a with Dim1 n _ => n | Dim2 _ m _ _ => m end.

(** Number of rows of an array seen as 2-D. *)
Definition nrows (a : ndarray) : nat :=
  match lay a with Dim1 _ _ => 1%nat | Dim2 n _ _ _ => n end.

(** [np.vstack(arrs)]: the rows of the arrays, one block after the other, in
    a fresh array; the arrays must agree on the number of columns. *)
Definition np_vstack (arrs : list ndarray) : M ndarray :=
  h ← get_heap;
  blocks ← lift (mapM (tolist h) arrs);
  match arrs with
  | [] => raise ValueError
  | a0 :: _ =>
      if forallb (fun a => Nat.eqb (ncols a) (ncols a0)) arrs
      then new_2d (sum_list (nrows <$> arrs)) (ncols a0) (concat (rows_2d <$> blocks))
      else raise ValueError
  end.

(** [np.tile(a, (r0, r1))]: every row repeated [r1] times sideways, the block
    of rows repeated [r0] times downwards, in a fresh array. *)
Definition np_tile (a : ndarray) (reps : nat * nat) : M ndarray :=
  h ← get_heap;
  v ← lift (tolist h a);
  let '(r0, r1) := reps in
  new_2d (r0 * nrows a) (r1 * ncols a)
         (concat (replicate r0 ((fun r => concat (replicate r1 r)) <$> rows_2d v))).

(** ** Python text *)

(** [s.startswith(prefix)] *)
Definition startswith (s prefix : string) : bool := String.prefix prefix s.

(** [s[i:j]] for [0 <= i <= j]: the slice is clipped to the text. *)
Definition slice (s : string) (i j : nat) : string := String.substring i (j - i) s.

Definition newline : ascii := "010"%char.

(** The lines an iteration over a text file yields: each keeps its
    terminating newline, a last line without one is yielded as it is. *)
Fixpoint readlines (s : string) : list string :=
  match s with
  | EmptyString => []
  | String c s' =>
      if Ascii.eqb c newline then String c "" :: readlines s'
      else match readlines s' with
           | [] => [String c ""]
           | l :: ls => String c l :: ls
           end
  end.

(** *** [float(str)] *)

Definition prec64 : Z := 53.
Definition emax64 : Z := 1024.

(** The characters [float] strips: [\t \n \v \f \r], the space, NEL and the
    no-break space. *)
Definition is_space (c : ascii) : bool :=
  let n := nat_of_ascii c in
  ((9 <=? n) && (n <=? 13) || (n =? 32) || (n =? 133) || (n =? 160))%nat.

Definition digit_val (c : ascii) : option Z :=
  let n := Z.of_nat (nat_of_ascii c) in
  if (48 <=? n) && (n <=? 57) then Some (n - 48) else None.

(** ASCII lower case. *)
Definition lower (c : ascii) : ascii :=
  let n := nat_of_ascii c in
  if ((65 <=? n) && (n <=? 90))%nat then ascii_of_nat (n + 32) else c.

Fixpoint lower_str (s : string) : string :=
  match s with
  | EmptyString => EmptyString
  | String c s' => String (lower c) (lower_str s')
  end.

Fixpoint lstrip (s : string) : string :=
  match s with
  | String c s' => if is_space c then lstrip s' else s
  | EmptyString => EmptyString
  end.

Definition strip (s : string) : string :=
  String.rev (lstrip (String.rev (lstrip s))).

(** The rest of a [digitpart] after its first digit: [(["_"] digit)*]. *)
Fixpoint digits_tail (s : string) : list Z * string :=
  match s with
  | String c s' =>
      match digit_val c with
      | Some d => let '(ds, r) := digits_tail s' in (d :: ds, r)
      | None =>
          if Ascii.eqb c "_" then
            match s' with
            | String c' s'' =>
                match digit_val c' with
                | Some d => let '(ds, r) := digits_tail s'' in (d :: ds, r)
                | None => ([], s)
                end
            | EmptyString => ([], s)
            end
          else ([], s)
      end
  | EmptyString => ([], EmptyString)
  end.

(** [digitpart ::= digit (["_"] digit)*] *)
Definition digitpart (s : string) : option (list Z * string) :=
  match s with
  | String c s' =>
      match digit_val c with
      | Some d => let '(ds, r) := digits_tail s' in Some (d :: ds, r)
      | None => None
      end
  | EmptyString => None
  end.

Definition digits_value (ds : list Z) : Z :=
  fold_left (fun acc d => 10 * acc + d) ds 0.

(** [number ::= [digitpart] "." digitpart | digitpart ["."]], read as the
    integer of all its digits and the (negated) count of fraction digits. *)
Definition number (s : string) : option (Z * Z * string) :=
  match digitpart s with
  | Some (ip, String "." r) =>
      match digitpart r with
      | Some (fp, r') => Some (digits_value (ip ++ fp), - Z.of_nat (length fp), r')
      | None => Some (digits_value ip, 0, r)
      end
  | Some (ip, r) => Some (digits_value ip, 0, r)
  | None =>
      match s with
      | String "." r =>
          match digitpart r with
          | Some (fp, r') => Some (digits_value fp, - Z.of_nat (length fp), r')
          | None => None
          end
      | _ => None
      end
  end.

(** [exponent ::= ("e" | "E") [sign] digitpart], absent when the text ends. *)
Definition exponent (s : string) : option Z :=
  match s with
  | EmptyString => Some 0
  | String c r =>
      if Ascii.eqb (lower c) "e" then
        match r with
        | String "-" r' =>
            match digitpart r' with
            | Some (ds, EmptyString) => Some (- digits_value ds)
            | _ => None
            end
        | String "+" r' =>
            match digitpart r' with
            | Some (ds, EmptyString) => Some (digits_value ds)
            | _ => None
            end
        | _ =>
            match digitpart r with
            | Some (ds, EmptyString) => Some (digits_value ds)
            | _ => None
            end
        end
      else None
  end.

(** The binary64 value nearest to [mant * 10 ^ e10] (ties to even). *)
Definition decimal_to_float (neg : bool) (mant e10 : Z) : float64 :=
  match mant with
  | Zpos p =>
      if 0 <=? e10
      then binary_round prec64 emax64 neg (p * Z.to_pos (10 ^ e10)) 0
      else
        let '(q, e, l) := SFdiv_core_binary prec64 emax64 (Zpos p) 0 (10 ^ (- e10)) 0 in
        binary_round_aux prec64 emax64 neg q e l
  | _ => S754_zero neg
  end.

(** [absfloatvalue ::= floatnumber | infinity | nan] *)
Definition absfloatvalue (neg : bool) (s : string) : option float64 :=
  let t := lower_str s in
  if String.eqb t "inf" || String.eqb t "infinity" then Some (S754_infinity neg)
  else if String.eqb t "nan" then Some S754_nan
  else
    match number s with
    | Some (mant, frac, r) =>
        match exponent r with
        | Some e => Some (decimal_to_float neg mant (e + frac))
        | None => None
        end
    | None => None
    end.

(** [float(s)] for a string: [None] where Python raises [ValueError]. *)
Definition float_of_str (s : string) : option float64 :=
  match strip s with
  | String "-" r => absfloatvalue true r
  | String "+" r => absfloatvalue false r
  | t => absfloatvalue false t
  end.

Definition float (s : string) : M float64 :=
  match float_of_str s with
  | Some x => mret x
  | None => raise ValueError
  end.

(** ** File parser *)

(** [open(file_path, 'r')] and the read of the whole text. *)
Definition open_read (file_path : string) : M string := fun w =>
  match files w !! file_path with
  | Some text => (Return text, w)
  | None => (Raise FileNotFoundError, w)
  end.

(** The loop of [parse_pdb] over the lines still to read, [coordinates]
    being the list built so far. *)
Fixpoint parse_lines (lines : list string) (coordinates : list (list float64))
  : M (list (list float64)) :=
  match lines with
  | [] => mret coordinates
  | line :: rest =>
      if startswith line "ATOM" then
        x ← float (slice line 30 38);
        y ← float (slice line 38 46);
        z ← float (slice line 46 54);
        parse_lines rest (coordinates ++ [[x; y; z]])
      else parse_lines rest coordinates
  end.

(** [parse_pdb], cell 3 of the notebook. *)
Definition parse_pdb (file_path : string) : M ndarray :=
  pdb_file ← open_read file_path;
  coordinates ← parse_lines (readlines pdb_file) [];
  np_array coordinates.

(** ** Formatting *)

Definition digit_char (d : Z) : ascii := ascii_of_N (Z.to_N (48 + d)).

(** The decimal digits of [n], most significant first, put before [acc]. *)
Fixpoint dec_digits (fuel : nat) (n : Z) (acc : string) : string :=
  match fuel with
  | O => acc
  | S fuel' =>
      let acc' := String (digit_char (n `mod` 10)) acc in
      if n <? 10 then acc' else dec_digits fuel' (n / 10) acc'
  end.

(** [str(n)] for an integer [n >= 0]. *)
Definition str_of_Z (n : Z) : string :=
  dec_digits (S (Z.to_nat (Z.log2 n))) n "".

(** The last [k] decimal digits of [n], put before [acc]. *)
Fixpoint last_digits (k : nat) (n : Z) (acc : string) : string :=
  match k with
  | O => acc
  | S k' => last_digits k' (n / 10) (String (digit_char (n `mod` 10)) acc)
  end.

Fixpoint spaces (k : nat) : string :=
  match k with
  | O => ""
  | S k' => String " " (spaces k')
  end.

(** Right alignment in a field of [width] characters at least: the text is
    padded with spaces on the left, and never cut. *)
Definition rjust (s : string) (width : nat) : string :=
  spaces (width - String.length s) +:+ s.

(** [format(n, 'w')] for an integer, as in [{i+1:4}]. *)
Definition format_d (n : Z) (width : nat) : string := rjust (str_of_Z n) width.

(** [num / den] rounded to the nearest integer, ties to even
    ([num >= 0], [den > 0]). *)
Definition round_half_even (num den : Z) : Z :=
  let q := num / den in
  match Z.compare (2 * (num `mod` den)) den with
  | Lt => q
  | Gt => q + 1
  | Eq => if Z.even q then q else q + 1
  end.

(** [|x| * 10 ^ prec] rounded to an integer, for [|x| = m * 2 ^ e]. *)
Definition scaled (prec : nat) (m : positive) (e : Z) : Z :=
  if 0 <=? e then Zpos m * 2 ^ e * 10 ^ Z.of_nat prec
  else round_half_even (Zpos m * 10 ^ Z.of_nat prec) (2 ^ (- e)).

(** The digits of the scaled integer [k] with the point [prec] places from
    the right. *)
Definition fixed (prec : nat) (k : Z) : string :=
  str_of_Z (k / 10 ^ Z.of_nat prec) +:+
  match prec with
  | O => ""
  | S _ => String "." (last_digits prec k "")
  end.

Definition sign_str (neg : bool) : string := if neg then "-" else "".

(** [format(x, '.{prec}f')] *)
Definition fixed_point (x : float64) (prec : nat) : string :=
  match x with
  | S754_nan => "nan"
  | S754_infinity s => sign_str s +:+ "inf"
  | S754_zero s => sign_str s +:+ fixed prec 0
  | S754_finite s m e => sign_str s +:+ fixed prec (scaled prec m e)
  end.

(** [format(x, '{width}.{prec}f')], as in [{coord[0]:7.3f}]. *)
Definition format_f (x : float64) (width prec : nat) : string :=
  rjust (fixed_point x prec) width.

(** ** Writer *)

(** The record line of the f-string of [save_pdb] for index [i] and the
    coordinates [x], [y], [z] (the line ends with a newline). *)
Definition atom_line (i : nat) (x y z : float64) : string :=
  "ATOM  " +:+ format_d (Z.of_nat i + 1) 4 +:+ "  CA  ALA A   1     " +:+
  format_f x 7 3 +:+ " " +:+ format_f y 7 3 +:+ " " +:+ format_f z 7 3 +:+
  "  1.00  0.00           C" +:+ String newline "".

(** The exception [open(path, 'w')] raises in a world, if any: the empty
    path is no file anywhere, the other paths fail where the world says. *)
Definition open_failure (w : world) (path : string) : option exn :=
  if String.eqb path "" then Some FileNotFoundError else unwritable w !! path.

(** [open(output_path, 'w')]: the file is created or emptied, unless the
    open fails, which leaves everything as it was. *)
Definition open_write (path : string) : M unit := fun w =>
  match open_failure w path with
  | Some e => (Raise e, w)
  | None => (Return tt, set_files (<[path := ""]> (files w)) w)
  end.

(** [pdb_file.write(text)]: the text is appended. *)
Definition file_write (path : string) (text : string) : M unit := fun w =>
  (Return tt, set_files (<[path := default "" (files w !! path) +:+ text]> (files w)) w).

(** The loop of [save_pdb] from index [i] on: [coord[0]], [coord[1]] and
    [coord[2]] are read, then the line is written. *)
Fixpoint write_atoms (path : string) (i : nat) (rows : list (list float64)) : M unit :=
  match rows with
  | [] => mret tt
  | coord :: rest =>
      match coord with
      | x :: y :: z :: _ =>
          file_write path (atom_line i x y z);;
          write_atoms path (S i) rest
      | _ => raise IndexError
      end
  end.

(** [save_pdb], cell 7 of the notebook.  The iteration over a 1-D array
    yields scalars, which [coord[0]] cannot index. *)
Definition save_pdb (output_path : string) (coordinates : ndarray) : M unit :=
  open_write output_path;;
  h ← get_heap;
  v ← lift (tolist h coordinates);
  match v with
  | Rows rows => write_atoms output_path 0 rows
  | Items [] => mret tt
  | Items (_ :: _) => raise IndexError
  end.

(** ** Data preparation of [main] *)

Definition input_pdb_path : string := "input/AF-O06917-F1-model_v4.pdb".
Definition output_pdb_path : string := "output/reconstructed_protein.pdb".

(** Lines 239 to 242 of [main]: the views, the stacked input and the tiled
    target that [train_model] receives. *)
Definition training_data (original_coordinates : ndarray) : M (ndarray * ndarray) :=
  '(view1, view2, view3) ← generate_views original_coordinates;
  input_data ← np_vstack [view1; view2; view3];
  output_data ← np_tile original_coordinates (3%nat, 1%nat);
  mret (input_data, output_data).

(** [main] up to the call of [train_model]; the network, its predictions and
    the plot are outside the embedding. *)
Definition main : M (ndarray * ndarray) :=
  original_coordinates ← parse_pdb input_pdb_path;
  training_data original_coordinates.

(** ** The split of [train_model] *)

(** The binary64 value of the literal [0.2]. *)
Definition test_size_02 : float64 := S754_finite false 7205759403792794 (-55).

(** An integer as a float. *)
Definition float_of_Z (n : Z) : float64 := binary_normalize prec64 emax64 n 0 false.

(** [math.ceil(x)]; infinities and NaN have none. *)
Definition ceil (x : float64) : option Z :=
  match x with
  | S754_zero _ => Some 0
  | S754_finite s m e =>
      let v := if s then Zneg m else Zpos m in
      Some (if 0 <=? e then v * 2 ^ e else - ((- v) / 2 ^ (- e)))
  | _ => None
  end.

(** The sizes [(n_train, n_test)] scikit-learn derives from a fractional
    [test_size] when no [train_size] is given: [n_test = ceil(test_size *
    n_samples)], the rest is the training part, which must not be empty. *)
Definition validate_shuffle_split (n_samples : nat) (test_size : float64)
  : outcome (nat * nat) :=
  match ceil (SFmul prec64 emax64 test_size (float_of_Z (Z.of_nat n_samples))) with
  | Some n_test =>
      let n_train := Z.of_nat n_samples - n_test in
      if n_train <=? 0 then Raise ValueError
      else Return (Z.to_nat n_train, Z.to_nat n_test)
  | None => Raise ValueError
  end.

Definition of_outcome {A} (o : outcome A) : M A := fun w => (o, w).

(** [(ind_train, ind_test)] of [ShuffleSplit] from the shuffled row numbers:
    the first [n_test] go to the test part, the next [n_train] to the
    training part. *)
Definition split_permutation (permutation : list nat) (n_train n_test : nat)
  : list nat * list nat :=
  (take n_train (drop n_test permutation), take n_test permutation).

(** [a[idx]]: the chosen rows in a fresh array. *)
Definition index_rows (a : ndarray) (idx : list nat) : M ndarray :=
  h ← get_heap;
  v ← lift (tolist h a);
  match v with
  | Rows rs => new_2d (length (take_rows rs idx)) (ncols a) (take_rows rs idx)
  | Items xs => new_1d (take_rows xs idx)
  end.

Section Split.

(** [np.random.RandomState(seed)]: the generator a seed determines. *)
Variable RandomState : Z → rng.

(** [rng.permutation(n_samples)] for [rng = check_random_state(random_state)]:
    an integer seeds a generator of its own, [None] stands for the global
    generator of [np.random]. *)
Definition seeded_permutation (random_state : option Z) (n_samples : nat) : M (list nat) :=
  match random_state with
  | Some seed => mret (shuffle (seq 0 n_samples) (RandomState seed)).1
  | None => np_random_run (shuffle (seq 0 n_samples))
  end.

(** [train_test_split(X, y, test_size=..., random_state=...)] *)
Definition train_test_split (X y : ndarray) (test_size : float64)
    (random_state : option Z) : M (ndarray * ndarray * ndarray * ndarray) :=
  if negb (Nat.eqb (len X) (len y)) then raise ValueError
  else
    '(n_train, n_test) ← of_outcome (validate_shuffle_split (len X) test_size);
    permutation ← seeded_permutation random_state (len X);
    let '(train, test) := split_permutation permutation n_train n_test in
    X_train ← index_rows X train;
    X_test ← index_rows X test;
    y_train ← index_rows y train;
    y_test ← index_rows y test;
    mret (X_train, X_test, y_train, y_test).

(** Line 131 of [train_model]: the split, with its fixed seed.  The scaler
    and the network that follow are outside the embedding. *)
Definition train_model (input_data output_data : ndarray)
  : M (ndarray * ndarray * ndarray * ndarray) :=
  train_test_split input_data output_data test_size_02 (Some 42).

End Split.

(** ** Vocabulary of the statements *)

(** [C] is a Coordinate Set holding [rows] in store [h]: an array of shape
    [(N, 3)] that reads as the [N] rows. *)
Definition coordinate_set (h : gmap positive (list float64)) (C : ndarray)
    (rows : list (list float64)) : Prop :=
  shape C = [length rows; 3%nat] ∧ tolist h C = Some (Rows rows).

(** The characters of columns [a] to [b] of a line, columns counted from 1
    and both ends included. *)
Definition columns (line : string) (a b : nat) : string :=
  String.substring (a - 1) (b + 1 - a) line.

(** A line is an atom record when it begins with the marker. *)
Definition atom_record (line : string) : bool := startswith line "ATOM".

(** The coordinate row a line encodes: the numbers of columns 31-38, 39-46
    and 47-54, when all three read as numbers. *)
Definition coordinates_of (line : string) : option (list float64) :=
  x ← float_of_str (columns line 31 38);
  y ← float_of_str (columns line 39 46);
  z ← float_of_str (columns line 47 54);
  Some [x; y; z].

(** What the four arrays of a split read as, or the exception. *)
Definition read_split (r : outcome (ndarray * ndarray * ndarray * ndarray) * world)
  : outcome (option nested * option nested * option nested * option nested) :=
  match r with
  | (Return (X_train, X_test, y_train, y_test), w') =>
      Return (tolist (heap w') X_train, tolist (heap w') X_test,
              tolist (heap w') y_train, tolist (heap w') y_test)
  | (Raise e, _) => Raise e
  end.

(** The split as a function of the data, the seed and the test fraction
    alone. *)
Definition split_of_data (RandomState : Z → rng) (seed : Z) (test_size : float64)
    (xs ys : list (list float64))
  : outcome (option nested * option nested * option nested * option nested) :=
  if negb (Nat.eqb (length xs) (length ys)) then Raise ValueError
  else
    match validate_shuffle_split (length xs) test_size with
    | Raise e => Raise e
    | Return (n_train, n_test) =>
        let permutation := (shuffle (seq 0 (length xs)) (RandomState seed)).1 in
        let '(train, test) := split_permutation permutation n_train n_test in
        Return (Some (Rows (take_rows xs train)), Some (Rows (take_rows xs test)),
                Some (Rows (take_rows ys train)), Some (Rows (take_rows ys test)))
    end.

(** Every character of a text satisfies a test. *)
Fixpoint all_chars (P : ascii → bool) (s : string) : bool :=
  match s with
  | EmptyString => true
  | String c s' => P c && all_chars P s'
  end.

Definition is_digit (c : ascii) : bool :=
  let n := nat_of_ascii c in ((48 <=? n) && (n <=? 57))%nat.


(** The number a text of decimal digits denotes, continuing from [acc]. *)
Fixpoint decimal_value (acc : Z) (s : string) : Z :=
  match s with
  | EmptyString => acc
  | String c s' => decimal_value (10 * acc + (Z.of_nat (nat_of_ascii c) - 48)) s'
  end.

(** A float is finite: a zero or a nonzero number. *)
Definition is_finite (x : float64) : bool :=
  match x with
  | S754_zero _ | S754_finite _ _ _ => true
  | _ => false
  end.

(** [|x| * 1000] rounded to an integer, for a finite [x]. *)
Definition thousandths (x : float64) : Z :=
  match x with
  | S754_finite _ m e => scaled 3 m e
  | _ => 0
  end.

Definition is_negative (x : float64) : bool :=
  match x with
  | S754_zero s | S754_infinity s | S754_finite s _ _ => s
  | S754_nan => false
  end.

(** The atom number field of a record line: the decimal digits of [n],
    without leading zeros, right-aligned with spaces in exactly 4 characters
    when the digits are 4 at most, that is as long as [n] is below 10000,
    and without any space otherwise. *)
Definition number_field (field : string) (n : Z) : Prop :=
  ∃ k digits,
    field = spaces k +:+ digits ∧
    all_chars is_digit digits = true ∧ decimal_value 0 digits = n ∧
    (digits = "0" ∨ ∃ c rest, digits = String c rest ∧ c ≠ "0"%char) ∧
    String.length field = (4 `max` String.length digits)%nat ∧
    (4 ≤ String.length field)%nat ∧
    (n < 10000 → String.length field = 4%nat).

(** A coordinate field of a record line: the fixed-point text of [x],
    right-aligned with spaces in exactly 7 characters when the text holds 7
    at most, and without any space otherwise.  The field holds exactly 7
    characters if and only if [x] is NaN or infinite, or [|x| * 1000]
    rounded is below 1000000 for a number without the minus sign, below
    100000 for one with it.  For a finite [x] the text is an optional minus
    sign, the digits of the integer part, a point and exactly 3 digits,
    which together denote [|x| * 1000] rounded. *)
Definition coordinate_field (field : string) (x : float64) : Prop :=
  ∃ k,
    field = spaces k +:+ fixed_point x 3 ∧
    String.length field = (7 `max` String.length (fixed_point x 3))%nat ∧
    (7 ≤ String.length field)%nat ∧
    (String.length field = 7%nat ↔
     (is_finite x = true →
      thousandths x < (if is_negative x then 100000 else 1000000))) ∧
    (is_finite x = true →
     ∃ digits frac,
       fixed_point x 3 = sign_str (is_negative x) +:+ digits +:+ String "." frac ∧
       (1 ≤ String.length digits)%nat ∧ String.length frac = 3%nat ∧
       all_chars is_digit digits = true ∧ all_chars is_digit frac = true ∧
       decimal_value 0 (digits +:+ frac) = thousandths x).

(** The record lines [save_pdb] writes for rows of three numbers, numbered
    from [i]. *)
Fixpoint atom_lines (i : nat) (rows : list (list float64)) : list string :=
  match rows with
  | (x :: y :: z :: _) :: rest => atom_line i x y z :: atom_lines (S i) rest
  | _ => []
  end.

(** The text of a file written line after line. *)
Definition text_of_lines (lines : list string) : string :=
  foldr String.append "" lines.

(** ** Sample inputs *)

Definition line_of (s : string) : string := s +:+ String newline "".

(** Some state of the random source. *)
Definition some_rng : rng := fun requests => length requests.

(** A structure file without atom records, at the path [main] reads. *)
Definition no_atoms_text : string :=
  line_of "HEADER    EMPTY STRUCTURE" +:+ line_of "END".

Definition world_no_atoms : world :=
  World ∅ {[ input_pdb_path := no_atoms_text ]} some_rng ∅.

(** The four atoms (0,0,0), (1,1,1), (2,2,2), (3,3,3). *)
Definition four_atoms : list (list float64) :=
  (fun k => let c := float_of_Z k in [c; c; c]) <$> [0; 1; 2; 3].

Definition four_atoms_text : string :=
  line_of "HEADER    FOUR ATOMS" +:+
  line_of "ATOM      1  CA  ALA A   1       0.000   0.000   0.000  1.00  0.00           C" +:+
  line_of "ATOM      2  CA  ALA A   1       1.000   1.000   1.000  1.00  0.00           C" +:+
  line_of "ATOM      3  CA  ALA A   1       2.000   2.000   2.000  1.00  0.00           C" +:+
  line_of "ATOM      4  CA  ALA A   1       3.000   3.000   3.000  1.00  0.00           C" +:+
  line_of "END".

(** A world that holds the four atoms as an array of shape (4, 3), and the
    file they come from. *)
Definition four_atoms_array : ndarray := NdArray 1 0 (Dim2 4 3 3 1).

Definition world_four_atoms : world :=
  World {[ 1%positive := concat four_atoms ]} {[ input_pdb_path := four_atoms_text ]} some_rng ∅.

(** The four atoms where the directory of the output file is missing. *)
Definition world_no_output_directory : world :=
  World {[ 1%positive := concat four_atoms ]} {[ input_pdb_path := four_atoms_text ]}
    some_rng {[ output_pdb_path := FileNotFoundError ]}.

(** An atom record whose y field is not a number. *)
Definition bad_atom_text : string :=
  line_of "ATOM      1  CA  ALA A   1       0.000   ?.???   0.000  1.00  0.00           C".

Definition world_bad_atom : world :=
  World ∅ {[ input_pdb_path := bad_atom_text ]} some_rng ∅.

(** An empty array of shape (0, 3). *)
Definition empty_0x3 : ndarray := NdArray 1 0 (Dim2 0 3 3 1).

Definition world_empty_0x3 : world :=
  World {[ 1%positive := [] ]} {[ input_pdb_path := no_atoms_text ]} some_rng ∅.

(** One atom at (-100.0, 1000.0, 0.5). *)
Definition wide_atom : list (list float64) :=
  [[S754_finite true 7036874417766400 (-46);
    S754_finite false 8796093022208000 (-43);
    S754_finite false 4503599627370496 (-53)]].



(** Another state of the random source, and a seeded generator. *)
Definition other_rng : rng := fun requests => (7 * length requests + sum_list requests)%nat.

Definition some_RandomState : Z → rng :=
  fun seed requests => (Z.to_nat seed + 3 * length requests)%nat.

(** The four atoms again, in a file whose other columns differ (numbers,
    atom and residue names, occupancies, missing or other trailing columns)
    and that holds a hetero-atom record besides. *)
Definition four_atoms_relabelled_text : string :=
  line_of "REMARK    THE FOUR ATOMS, RELABELLED" +:+
  line_of "ATOM     11  N   GLY B  27       0.000   0.000   0.000  0.50 12.30           N" +:+
  line_of "ATOM     12  CB  SER B  27       1.000   1.000   1.000" +:+
  line_of "HETATM   13  O   HOH B 101       9.000   9.000   9.000  1.00  0.00           O" +:+
  line_of "ATOMS    14  C   TRP B  28       2.000   2.000   2.000  1.00" +:+
  line_of "ATOM     15  O   TRP B  28       3.000   3.000   3.000  1.00  0.00           O".

Definition world_relabelled : world :=
  World ∅ {[ input_pdb_path := four_atoms_relabelled_text ]} other_rng ∅.

(** An atom record that ends after its y field. *)
Definition truncated_atom_text : string :=
  line_of "ATOM      1  CA  ALA A   1       0.000   0.000".

Definition world_truncated : world :=
  World ∅ {[ input_pdb_path := truncated_atom_text ]} some_rng ∅.

Definition four_columns_array : ndarray := NdArray 1 0 (Dim2 3 4 3 1).
Definition three_atoms_array : ndarray := NdArray 1 0 (Dim2 3 3 3 1).
Definition twelve_numbers_array : ndarray := NdArray 1 0 (Dim1 12 1).

(** ** Vocabulary of the further properties *)

(** [main] through its call of [train_model], up to the split there. *)
Definition main_to_split (RandomState : Z → rng)
  : M (ndarray * ndarray * ndarray * ndarray) :=
  '(input_data, output_data) ← main;
  train_model RandomState input_data output_data.

(** The float a coordinate is read back as once written with 3 decimals:
    NaN and the infinities as they are, a finite [x] as the float nearest to
    its rounded thousandths, with its sign. *)
Definition reread (x : float64) : float64 :=
  match x with
  | S754_nan => S754_nan
  | S754_infinity s => S754_infinity s
  | _ => decimal_to_float (is_negative x) (thousandths x) (-3)
  end.


(** A coordinate fits its field: its fixed-point text holds 7 characters at
    most. *)
Definition narrow (x : float64) : bool :=
  (String.length (fixed_point x 3) <=? 7)%nat.

(** What a call that returns an array gives to read: the nested lists of the
    array in the store reached, or the exception. *)
Definition read_array (r : outcome ndarray * world) : outcome (option nested) :=
  match r with
  | (Return a, w') => Return (tolist (heap w') a)
  | (Raise e, _) => Raise e
  end.

(** The values of the characters of a text of digits. *)
Fixpoint digit_vals (s : string) : list Z :=
  match s with
  | EmptyString => []
  | String c s' => (Z.of_nat (nat_of_ascii c) - 48) :: digit_vals s'
  end.

Definition not_space (c : ascii) : bool := negb (is_space c).

(** * Properties *)

(** ** The monad *)

Lemma bind_run {A B} (c : M A) (k : A → M B) (w : world) :
  (c ≫= k) w =
  match c w with
  | (Return a, w') => k a w'
  | (Raise e, w') => (Raise e, w')
  end.
Proof. reflexivity. Qed.

Lemma bind_return {A B} (c : M A) (k : A → M B) (w w' : world) (a : A) :
  c w = (Return a, w') → (c ≫= k) w = k a w'.
Proof. intros H. rewrite bind_run, H. reflexivity. Qed.

Lemma bind_raise {A B} (c : M A) (k : A → M B) (w w' : world) (e : exn) :
  c w = (Raise e, w') → (c ≫= k) w = (Raise e, w').
Proof. intros H. rewrite bind_run, H. reflexivity. Qed.

(** ** Reading arrays *)

Lemma mapM_seq_Some {A} (f : nat → option A) (n : nat) (l : list A) :
  mapM f (seq 0 n) = Some l ↔ length l = n ∧ ∀ i, (i < n)%nat → f i = l !! i.
Proof.
  rewrite mapM_Some, Forall2_same_length_lookup, length_seq. split.
  - intros [Hlen H]. split; [done|]. intros i Hi.
    destruct (lookup_lt_is_Some_2 l i) as [y Hy]; [lia|].
    rewrite Hy. apply (H i i y); [|done]. by rewrite lookup_seq_lt.
  - intros [Hlen H]. split; [done|]. intros i x y [-> Hi]%lookup_seq Hy.
    simpl. by rewrite H.
Qed.

Lemma view_of_rows (buf : list float64) (off s0 s1 : Z) (n m : nat) (rows : list (list float64)) :
  view_of buf off (Dim2 n m s0 s1) = Some (Rows rows) ↔
  length rows = n ∧
  ∀ i, (i < n)%nat → ∃ r, rows !! i = Some r ∧ length r = m ∧
    ∀ j, (j < m)%nat → item2 buf off s0 s1 i j = r !! j.
Proof.
  simpl. rewrite fmap_Some. split.
  - intros (rs & H & [= ->]). apply mapM_seq_Some in H as [Hlen H].
    split; [done|]. intros i Hi.
    destruct (lookup_lt_is_Some_2 rs i) as [r Hr]; [lia|].
    exists r. split; [done|]. apply mapM_seq_Some. by rewrite H.
  - intros [Hlen H]. exists rows. split; [|done].
    apply mapM_seq_Some. split; [done|]. intros i Hi.
    destruct (H i Hi) as (r & -> & Hr). by apply mapM_seq_Some.
Qed.

Lemma view_of_items (buf : list float64) (off s : Z) (n : nat) (xs : list float64) :
  view_of buf off (Dim1 n s) = Some (Items xs) ↔
  length xs = n ∧ ∀ i, (i < n)%nat → item1 buf off s i = xs !! i.
Proof.
  simpl. rewrite fmap_Some. split.
  - intros (l & H & [= ->]). by apply mapM_seq_Some.
  - intros H. exists xs. split; [|done]. by apply mapM_seq_Some.
Qed.

Lemma view_of_rows_length (buf : list float64) (off s0 s1 : Z) (n m : nat)
    (rows : list (list float64)) :
  view_of buf off (Dim2 n m s0 s1) = Some (Rows rows) →
  length rows = n ∧ Forall (fun r => length r = m) rows.
Proof.
  intros [Hlen H]%view_of_rows. split; [done|].
  apply Forall_lookup. intros i r Hr.
  destruct (H i) as (r' & Hr' & Hm & _); [apply lookup_lt_Some in Hr; lia|].
  congruence.
Qed.

Lemma lookup_concat_uniform {A} (m : nat) (rows : list (list A)) (i j : nat) (r : list A) :
  Forall (fun r => length r = m) rows →
  rows !! i = Some r → (j < m)%nat →
  concat rows !! (i * m + j)%nat = r !! j.
Proof.
  intros Hall. revert i. induction Hall as [|r0 rows Hr0 _ IH]; intros i Hi Hj; [done|].
  destruct i as [|i]; simpl in *.
  - injection Hi as ->. rewrite lookup_app_l; [done|lia].
  - rewrite lookup_app_r; [|lia].
    replace (m + i * m + j - length r0)%nat with (i * m + j)%nat by lia. by apply IH.
Qed.

(** A freshly written C-contiguous buffer reads back as the rows written. *)
Lemma view_of_contiguous (m : nat) (rows : list (list float64)) :
  Forall (fun r => length r = m) rows →
  view_of (concat rows) 0 (Dim2 (length rows) m (Z.of_nat m) 1) = Some (Rows rows).
Proof.
  intros Hall. apply view_of_rows. split; [done|]. intros i Hi.
  destruct (lookup_lt_is_Some_2 rows i) as [r Hr]; [done|].
  exists r. split; [done|]. split; [by eapply (proj1 (Forall_lookup _ _) Hall)|].
  intros j Hj. unfold item2, buffer_get. rewrite decide_True by lia.
  replace (Z.to_nat (0 + Z.of_nat i * Z.of_nat m + Z.of_nat j * 1)) with (i * m + j)%nat by lia.
  by apply lookup_concat_uniform.
Qed.

Lemma view_of_contiguous_items (xs : list float64) :
  view_of xs 0 (Dim1 (length xs) 1) = Some (Items xs).
Proof.
  apply view_of_items. split; [done|]. intros i Hi.
  unfold item1, buffer_get. rewrite decide_True by lia. f_equal. lia.
Qed.

(** Negating the stride of axis 1 reverses every row. *)
Lemma view_of_flip_axis1 (buf : list float64) (off s0 s1 : Z) (n m : nat)
    (rows : list (list float64)) :
  view_of buf off (Dim2 n m s0 s1) = Some (Rows rows) →
  view_of buf (off + Z.of_nat (m - 1) * s1) (Dim2 n m s0 (- s1))
  = Some (Rows (reverse <$> rows)).
Proof.
  intros [Hlen H]%view_of_rows. apply view_of_rows.
  split; [by rewrite length_fmap|]. intros i Hi.
  destruct (H i Hi) as (r & Hr & Hm & Hitems).
  exists (reverse r). split; [by rewrite list_lookup_fmap, Hr|].
  split; [by rewrite length_reverse|]. intros j Hj.
  rewrite reverse_lookup by lia. rewrite Hm, <- Hitems by lia.
  unfold item2. f_equal.
  replace (Z.of_nat (m - S j)) with (Z.of_nat (m - 1) - Z.of_nat j) by lia. ring.
Qed.

(** ** Shuffling *)

Lemma swap_Permutation {A} (x : list A) (i j : nat) : swap x i j ≡ₚ x.
Proof.
  unfold swap. destruct (x !! i) as [xi|] eqn:Hi; [|done].
  destruct (x !! j) as [xj|] eqn:Hj; [|done].
  apply Permutation_inj. split; [by rewrite !length_insert|].
  exists (fun k => if decide (k = i) then j else if decide (k = j) then i else k).
  split.
  - intros a b. repeat case_decide; intros; simplify_eq; done.
  - intros k. apply lookup_lt_Some in Hi as Hi'. apply lookup_lt_Some in Hj as Hj'.
    repeat case_decide; subst.
    + destruct (decide (i = j)) as [->|].
      * rewrite list_lookup_insert_eq by (by rewrite length_insert). congruence.
      * rewrite list_lookup_insert_ne, list_lookup_insert_eq by done. done.
    + rewrite list_lookup_insert_eq by (by rewrite length_insert). done.
    + by rewrite !list_lookup_insert_ne.
Qed.

Lemma shuffle_from_Permutation {A} (i : nat) (x : list A) (g : rng) :
  (shuffle_from i x g).1 ≡ₚ x.
Proof.
  revert x g. induction i as [|i IH]; intros x g; [done|].
  cbn [shuffle_from random_interval]. by rewrite IH, swap_Permutation.
Qed.

Lemma shuffle_Permutation {A} (x : list A) (g : rng) : (shuffle x g).1 ≡ₚ x.
Proof. apply shuffle_from_Permutation. Qed.

Lemma np_random_run_spec {A} (f : rng → A * rng) (w : world) :
  np_random_run f w = (Return (f (np_random w)).1, set_np_random (f (np_random w)).2 w).
Proof. unfold np_random_run. by destruct (f (np_random w)). Qed.

Lemma take_rows_seq {A} (l1 l2 : list A) :
  take_rows (l1 ++ l2) (seq (length l1) (length l2)) = l2.
Proof.
  revert l1. induction l2 as [|y l2 IH]; intros l1; [done|].
  unfold take_rows in *. simpl. rewrite lookup_app_r, Nat.sub_diag by done. simpl.
  f_equal. specialize (IH (l1 ++ [y])).
  rewrite <- app_assoc, length_app in IH. simpl in IH.
  by rewrite Nat.add_1_r in IH.
Qed.

Lemma take_rows_Permutation {A} (rows : list A) (idx : list nat) :
  idx ≡ₚ seq 0 (length rows) → take_rows rows idx ≡ₚ rows.
Proof.
  intros Hp. transitivity (take_rows rows (seq 0 (length rows))).
  - unfold take_rows. by rewrite Hp.
  - pose proof (take_rows_seq [] rows) as H. simpl in H. by rewrite H.
Qed.

Lemma take_rows_Forall {A} (P : A → Prop) (rows : list A) (idx : list nat) :
  Forall P rows → Forall P (take_rows rows idx).
Proof.
  intros H. apply Forall_forall. intros r Hr.
  apply list_elem_of_omap in Hr as (k & _ & Hk).
  by eapply (proj1 (Forall_lookup _ _) H).
Qed.

(** ** Allocation and the frame of a read *)

Lemma tolist_Some_base (h : gmap positive (list float64)) (a : ndarray) (v : nested) :
  tolist h a = Some v → is_Some (h !! base a).
Proof. unfold tolist. destruct (h !! base a); [eauto|done]. Qed.

(** A read only depends on the buffer the header points to. *)
Lemma tolist_agree (h h' : gmap positive (list float64)) (a : ndarray) :
  h' !! base a = h !! base a → tolist h' a = tolist h a.
Proof. unfold tolist. by intros ->. Qed.

Lemma tolist_insert_fresh (h : gmap positive (list float64)) (a : ndarray) (v : nested)
    (l : positive) (data : list float64) :
  h !! l = None → tolist h a = Some v → tolist (<[l := data]> h) a = Some v.
Proof.
  intros Hl Hv. rewrite <- Hv. apply tolist_agree.
  apply lookup_insert_ne. intros ->.
  apply tolist_Some_base in Hv as [? ?]. congruence.
Qed.

Lemma alloc_run (data : list float64) (w : world) :
  ∃ l, alloc data w = (Return l, set_heap (<[l := data]> (heap w)) w) ∧
       heap w !! l = None.
Proof.
  exists (fresh (dom (heap w))). split; [done|].
  apply not_elem_of_dom, is_fresh.
Qed.

Lemma new_2d_run (n m : nat) (rows : list (list float64)) (w : world) :
  length rows = n → Forall (fun r => length r = m) rows →
  ∃ l, new_2d n m rows w
       = (Return (NdArray l 0 (Dim2 n m (Z.of_nat m) 1)),
          set_heap (<[l := concat rows]> (heap w)) w) ∧
       heap w !! l = None ∧
       tolist (<[l := concat rows]> (heap w)) (NdArray l 0 (Dim2 n m (Z.of_nat m) 1))
       = Some (Rows rows).
Proof.
  intros <- Hall. destruct (alloc_run (concat rows) w) as (l & Hrun & Hfresh).
  exists l. split; [|split; [done|]].
  - unfold new_2d. by erewrite bind_return by exact Hrun.
  - unfold tolist. simpl. rewrite lookup_insert_eq. simpl.
    by apply view_of_contiguous.
Qed.

Lemma new_1d_run (xs : list float64) (w : world) :
  ∃ l, new_1d xs w
       = (Return (NdArray l 0 (Dim1 (length xs) 1)), set_heap (<[l := xs]> (heap w)) w) ∧
       heap w !! l = None ∧
       tolist (<[l := xs]> (heap w)) (NdArray l 0 (Dim1 (length xs) 1)) = Some (Items xs).
Proof.
  destruct (alloc_run xs w) as (l & Hrun & Hfresh).
  exists l. split; [|split; [done|]].
  - unfold new_1d. by erewrite bind_return by exact Hrun.
  - unfold tolist. simpl. rewrite lookup_insert_eq. simpl.
    apply view_of_contiguous_items.
Qed.

(** ** The views *)

(** [np.random.permutation] on a 2-D array: a fresh array holding the rows
    [a[idx]] for a permutation [idx] of the row numbers; the store is only
    extended, the files are untouched. *)
Lemma np_random_permutation_2d (a : ndarray) (w : world) (n m : nat) (s0 s1 : Z)
    (rows : list (list float64)) :
  lay a = Dim2 n m s0 s1 →
  tolist (heap w) a = Some (Rows rows) →
  ∃ l idx r,
    np_random_permutation a w
    = (Return (NdArray l 0 (Dim2 n m (Z.of_nat m) 1)),
       World (<[l := concat (take_rows rows idx)]> (heap w)) (files w) r (unwritable w)) ∧
    heap w !! l = None ∧
    idx ≡ₚ seq 0 n ∧
    tolist (<[l := concat (take_rows rows idx)]> (heap w))
           (NdArray l 0 (Dim2 n m (Z.of_nat m) 1))
    = Some (Rows (take_rows rows idx)).
Proof.
  intros Hlay Hread.
  assert (length rows = n ∧ Forall (fun r => length r = m) rows) as [Hn Hm].
  { unfold tolist in Hread. rewrite Hlay in Hread.
    destruct (heap w !! base a) as [buf|]; [|done]. by eapply view_of_rows_length. }
  pose proof (np_random_run_spec (shuffle (seq 0 (length rows))) w) as Hsh.
  pose proof (shuffle_Permutation (seq 0 (length rows)) (np_random w)) as Hp.
  set (idx := (shuffle (seq 0 (length rows)) (np_random w)).1) in *.
  set (r := (shuffle (seq 0 (length rows)) (np_random w)).2) in *.
  assert (take_rows rows idx ≡ₚ rows) as Hperm by (by apply take_rows_Permutation).
  destruct (new_2d_run n m (take_rows rows idx) (set_np_random r w))
    as (l & Hnew & Hfresh & Hl).
  { by rewrite Hperm. }
  { by apply take_rows_Forall. }
  exists l, idx, r. split; [|split; [done|split; [by rewrite <- Hn|done]]].
  unfold np_random_permutation.
  erewrite bind_return by reflexivity.
  erewrite bind_return by (rewrite Hread; reflexivity). cbn beta iota.
  erewrite bind_return by exact Hsh.
  rewrite Hlay. exact Hnew.
Qed.

Lemma tolist_mono (h h' : gmap positive (list float64)) (a : ndarray) (v : nested) :
  h ⊆ h' → tolist h a = Some v → tolist h' a = Some v.
Proof.
  intros Hsub Hv. rewrite <- Hv. apply tolist_agree.
  destruct (tolist_Some_base _ _ _ Hv) as [buf Hbuf].
  rewrite Hbuf. by eapply lookup_weaken.
Qed.

Lemma np_flip_axis1_2d (a : ndarray) (w : world) (n m : nat) (s0 s1 : Z) :
  lay a = Dim2 n m s0 s1 →
  np_flip a 1 w
  = (Return (NdArray (base a) (offset a + Z.of_nat (m - 1) * s1) (Dim2 n m s0 (- s1))), w).
Proof. intros H. unfold np_flip. by rewrite H. Qed.

Lemma np_flip_axis1_1d (a : ndarray) (w : world) (n : nat) (s : Z) :
  lay a = Dim1 n s → np_flip a 1 w = (Raise AxisError, w).
Proof. intros H. unfold np_flip. by rewrite H. Qed.

Lemma tolist_flip_axis1 (h : gmap positive (list float64)) (a : ndarray) (n m : nat)
    (s0 s1 : Z) (rows : list (list float64)) :
  lay a = Dim2 n m s0 s1 →
  tolist h a = Some (Rows rows) →
  tolist h (NdArray (base a) (offset a + Z.of_nat (m - 1) * s1) (Dim2 n m s0 (- s1)))
  = Some (Rows (reverse <$> rows)).
Proof.
  unfold tolist. intros Hlay. simpl. destruct (h !! base a) as [buf|]; [|done].
  rewrite Hlay. apply view_of_flip_axis1.
Qed.

(** What [generate_views] does on an array of two axes: it returns; the
    first view is the argument itself, the second a fresh array holding a
    permutation of the rows, the third a view on the argument's buffer that
    reads every row reversed; the store is only extended. *)
Lemma generate_views_2d (C : ndarray) (w : world) (n m : nat) (s0 s1 : Z)
    (rows : list (list float64)) :
  lay C = Dim2 n m s0 s1 →
  tolist (heap w) C = Some (Rows rows) →
  ∃ view2 view3 w' rows2,
    generate_views C w = (Return (C, view2, view3), w') ∧
    heap w ⊆ heap w' ∧ files w' = files w ∧
    heap w !! base view2 = None ∧ base view3 = base C ∧
    shape view2 = [n; m] ∧ shape view3 = [n; m] ∧
    rows2 ≡ₚ rows ∧
    tolist (heap w') view2 = Some (Rows rows2) ∧
    tolist (heap w') view3 = Some (Rows (reverse <$> rows)) ∧
    tolist (heap w') C = Some (Rows rows).
Proof.
  intros Hlay Hread.
  destruct (np_random_permutation_2d C w n m s0 s1 rows Hlay Hread)
    as (l & idx & r & Hperm & Hfresh & Hidx & Hview2).
  assert (length rows = n) as Hn.
  { unfold tolist in Hread. rewrite Hlay in Hread.
    destruct (heap w !! base C); [|done]. by eapply view_of_rows_length. }
  assert (heap w ⊆ <[l := concat (take_rows rows idx)]> (heap w)) as Hsub
    by (by apply insert_subseteq).
  eexists _, _, _, (take_rows rows idx). split.
  { unfold generate_views. erewrite bind_return by exact Hperm.
    erewrite bind_return by (by apply np_flip_axis1_2d). reflexivity. }
  simpl. repeat split; try done.
  - apply take_rows_Permutation. by rewrite Hn.
  - eapply tolist_mono; [done|]. by apply tolist_flip_axis1.
  - by eapply tolist_mono.
Qed.

(** On an array of one axis, the flip along axis 1 fails. *)
Lemma generate_views_1d (C : ndarray) (w : world) (n : nat) (s : Z) (xs : list float64) :
  lay C = Dim1 n s →
  tolist (heap w) C = Some (Items xs) →
  ∃ w', generate_views C w = (Raise AxisError, w') ∧ heap w ⊆ heap w'.
Proof.
  intros Hlay Hread.
  destruct (new_1d_run (shuffle xs (np_random w)).1
              (set_np_random (shuffle xs (np_random w)).2 w)) as (l & Hnew & Hfresh & _).
  eexists. split.
  - unfold generate_views, np_random_permutation.
    erewrite bind_return; cycle 1.
    { erewrite bind_return by reflexivity.
      erewrite bind_return by (rewrite Hread; reflexivity). cbn beta iota.
      erewrite bind_return by apply np_random_run_spec. exact Hnew. }
    erewrite bind_raise by (by eapply np_flip_axis1_1d). reflexivity.
  - simpl. by apply insert_subseteq.
Qed.

Lemma tolist_Rows_lay (h : gmap positive (list float64)) (a : ndarray)
    (rows : list (list float64)) :
  tolist h a = Some (Rows rows) → ∃ n m s0 s1, lay a = Dim2 n m s0 s1.
Proof.
  unfold tolist. destruct (h !! base a) as [buf|]; [|done]. simpl.
  destruct (lay a) as [n s|n m s0 s1]; simpl; [|by eauto].
  by destruct (mapM _ _).
Qed.

Lemma tolist_Items_lay (h : gmap positive (list float64)) (a : ndarray) (xs : list float64) :
  tolist h a = Some (Items xs) → ∃ n s, lay a = Dim1 n s.
Proof.
  unfold tolist. destruct (h !! base a) as [buf|]; [|done]. simpl.
  destruct (lay a) as [n s|n m s0 s1]; simpl; [by eauto|].
  by destruct (mapM _ _).
Qed.

Lemma generate_views_unreadable (C : ndarray) (w : world) :
  tolist (heap w) C = None → generate_views C w = (Raise Stuck, w).
Proof.
  intros Hread. unfold generate_views, np_random_permutation.
  erewrite bind_raise; [done|].
  erewrite bind_return by reflexivity.
  erewrite bind_raise; [done|]. by rewrite Hread.
Qed.

(** A Coordinate Set has two axes, three columns, and rows of three numbers. *)
Lemma coordinate_set_inv (h : gmap positive (list float64)) (C : ndarray)
    (rows : list (list float64)) :
  coordinate_set h C rows →
  (∃ s0 s1, lay C = Dim2 (length rows) 3 s0 s1) ∧
  tolist h C = Some (Rows rows) ∧
  Forall (fun r => length r = 3%nat) rows.
Proof.
  intros [Hshape Hread]. unfold shape in Hshape.
  destruct (lay C) as [n s|n m s0 s1] eqn:Hlay; [done|].
  injection Hshape as -> ->. split; [by eauto|]. split; [done|].
  unfold tolist in Hread. rewrite Hlay in Hread.
  destruct (h !! base C); [|done]. by eapply view_of_rows_length.
Qed.

Lemma reverse_triple {A} (r : list A) :
  length r = 3%nat → ∃ x y z, r = [x; y; z] ∧ reverse r = [z; y; x].
Proof.
  destruct r as [|x [|y [|z [|? ?]]]]; try done. intros _. by exists x, y, z.
Qed.

(** ** Properties of the views *)

(** C10.  [generate_views] does not modify its input: whatever the call
    does (return or raise), every buffer of the store before the call is
    still there with the same content after it, and the argument reads as
    the same values in the same order.  When it returns, the first view is
    the argument, the permutation view lives in a buffer that did not exist
    before (a copy), and the flip view is a view on the argument's buffer. *)
Theorem generate_views_preserves_input (C : ndarray) (w : world) :
  (∀ l buf, heap w !! l = Some buf → heap (generate_views C w).2 !! l = Some buf) ∧
  tolist (heap (generate_views C w).2) C = tolist (heap w) C ∧
  ∀ view1 view2 view3,
    (generate_views C w).1 = Return (view1, view2, view3) →
    view1 = C ∧ heap w !! base view2 = None ∧ base view3 = base C.
Proof.
  assert (heap w ⊆ heap (generate_views C w).2 ∧
          ∀ view1 view2 view3,
            (generate_views C w).1 = Return (view1, view2, view3) →
            view1 = C ∧ heap w !! base view2 = None ∧ base view3 = base C) as [Hsub Hviews].
  { destruct (tolist (heap w) C) as [[xs|rows]|] eqn:Hread.
    - destruct (tolist_Items_lay _ _ _ Hread) as (n & s & Hlay).
      destruct (generate_views_1d C w n s xs Hlay Hread) as (w' & -> & Hsub). done.
    - destruct (tolist_Rows_lay _ _ _ Hread) as (n & m & s0 & s1 & Hlay).
      destruct (generate_views_2d C w n m s0 s1 rows Hlay Hread)
        as (v2 & v3 & w' & rows2 & -> & Hsub & _ & Hfresh & Hbase & _).
      split; [done|]. by intros view1 view2 view3 [= <- <- <-].
    - by rewrite generate_views_unreadable. }
  split; [|split; [|done]].
  - intros l buf Hl. by eapply lookup_weaken.
  - destruct (tolist (heap w) C) as [v|] eqn:Hread.
    + by eapply tolist_mono.
    + by rewrite generate_views_unreadable.
Qed.

(** C3.  For a Coordinate Set [C], the third view of [generate_views] is the
    row-wise component reversal of [C]: it has as many rows, and where row
    [i] of [C] is [(x, y, z)], row [i] of the view is [(z, y, x)]. *)
Theorem view3_reverses_each_row (w : world) (C : ndarray) (rows : list (list float64)) :
  coordinate_set (heap w) C rows →
  ∃ view1 view2 view3 w' rows3,
    generate_views C w = (Return (view1, view2, view3), w') ∧
    tolist (heap w') view3 = Some (Rows rows3) ∧
    length rows3 = length rows ∧
    ∀ i, (i < length rows)%nat →
      ∃ x y z, rows !! i = Some [x; y; z] ∧ rows3 !! i = Some [z; y; x].
Proof.
  intros ((s0 & s1 & Hlay) & Hread & H3)%coordinate_set_inv.
  destruct (generate_views_2d C w _ _ s0 s1 rows Hlay Hread)
    as (v2 & v3 & w' & rows2 & Hrun & _ & _ & _ & _ & _ & _ & _ & _ & Hv3 & _).
  exists C, v2, v3, w', (reverse <$> rows).
  split; [done|]. split; [done|]. split; [by rewrite length_fmap|].
  intros i Hi. destruct (lookup_lt_is_Some_2 rows i Hi) as [r Hr].
  destruct (reverse_triple r) as (x & y & z & -> & Hrev).
  { by eapply (proj1 (Forall_lookup _ _) H3). }
  exists x, y, z. split; [done|]. by rewrite list_lookup_fmap, Hr.
Qed.

(** C4.  The flip of view 3 is an involution: on a non-empty Coordinate Set
    [C], flipping along axis 1 twice gives back [C], header and values. *)
Theorem flip_involutive (w : world) (C : ndarray) (rows : list (list float64)) :
  coordinate_set (heap w) C rows →
  rows ≠ [] →
  ∃ F FF,
    np_flip C 1 w = (Return F, w) ∧
    np_flip F 1 w = (Return FF, w) ∧
    tolist (heap w) F = Some (Rows (reverse <$> rows)) ∧
    FF = C ∧
    tolist (heap w) FF = Some (Rows rows).
Proof.
  intros ((s0 & s1 & Hlay) & Hread & _)%coordinate_set_inv _.
  exists (NdArray (base C) (offset C + Z.of_nat (3 - 1) * s1) (Dim2 (length rows) 3 s0 (- s1))), C.
  split; [by apply np_flip_axis1_2d|].
  split; [|split; [by apply tolist_flip_axis1|done]].
  erewrite np_flip_axis1_2d by reflexivity. simpl.
  destruct C as [b o ly]. simpl in *. subst ly.
  repeat f_equal; lia.
Qed.

(** C5.  For a Coordinate Set [C] and any state [g] of the random source,
    the second view of [generate_views] is a row-wise permutation of [C]: its
    rows are the rows of [C], each unchanged, with the same multiplicities;
    hence sorting both by any total order of the rows gives the same
    sequence. *)
Theorem view2_is_row_permutation (w : world) (g : rng) (C : ndarray)
    (rows : list (list float64)) :
  coordinate_set (heap w) C rows →
  ∃ view1 view2 view3 w' rows2,
    generate_views C (set_np_random g w) = (Return (view1, view2, view3), w') ∧
    tolist (heap w') view2 = Some (Rows rows2) ∧
    rows2 ≡ₚ rows ∧
    ∀ (R : relation (list float64)) (dec : ∀ r1 r2, Decision (R r1 r2)),
      Transitive R → Total R → AntiSymm (=) R →
      merge_sort R rows2 = merge_sort R rows.
Proof.
  intros ((s0 & s1 & Hlay) & Hread & _)%coordinate_set_inv.
  destruct (generate_views_2d C (set_np_random g w) _ _ s0 s1 rows Hlay Hread)
    as (v2 & v3 & w' & rows2 & Hrun & _ & _ & _ & _ & _ & _ & Hperm & Hv2 & _).
  exists C, v2, v3, w', rows2. split; [done|]. split; [done|]. split; [done|].
  intros R dec Htrans Htotal Hanti.
  apply (Sorted_unique R); [by apply Sorted_merge_sort..|].
  by rewrite !merge_sort_Permutation.
Qed.

(** ** The parser *)

Lemma coordinates_of_Some (line : string) (row : list float64) :
  coordinates_of line = Some row ↔
  ∃ x y z, row = [x; y; z] ∧
    float_of_str (columns line 31 38) = Some x ∧
    float_of_str (columns line 39 46) = Some y ∧
    float_of_str (columns line 47 54) = Some z.
Proof.
  unfold coordinates_of. split.
  - destruct (float_of_str (columns line 31 38)) as [x|]; [|done].
    destruct (float_of_str (columns line 39 46)) as [y|]; [|done].
    destruct (float_of_str (columns line 47 54)) as [z|]; [|done].
    intros [= <-]. by exists x, y, z.
  - intros (x & y & z & -> & -> & -> & ->). done.
Qed.

Lemma coordinates_of_None (line : string) :
  coordinates_of line = None ↔
  float_of_str (columns line 31 38) = None ∨
  float_of_str (columns line 39 46) = None ∨
  float_of_str (columns line 47 54) = None.
Proof.
  unfold coordinates_of.
  destruct (float_of_str (columns line 31 38)) as [x|]; [|by intuition].
  destruct (float_of_str (columns line 39 46)) as [y|]; [|by intuition].
  destruct (float_of_str (columns line 47 54)) as [z|]; [|by intuition].
  simpl. intuition; done.
Qed.

(** The three conversions of one matched line, in the order Python makes them. *)
Lemma parse_line_floats (line : string) (k : list float64 → M (list (list float64)))
    (w : world) :
  (x ← float (slice line 30 38);
   y ← float (slice line 38 46);
   z ← float (slice line 46 54);
   k [x; y; z]) w
  = match coordinates_of line with
    | Some row => k row w
    | None => (Raise ValueError, w)
    end.
Proof.
  unfold coordinates_of, float.
  change (columns line 31 38) with (slice line 30 38).
  change (columns line 39 46) with (slice line 38 46).
  change (columns line 47 54) with (slice line 46 54).
  destruct (float_of_str (slice line 30 38)) as [x|]; [|done].
  destruct (float_of_str (slice line 38 46)) as [y|]; [|done].
  by destruct (float_of_str (slice line 46 54)) as [z|].
Qed.

(** The loop reads the matched lines in order and stops at the first one
    that does not convert; it leaves the world as it is. *)
Lemma parse_lines_run (lines : list string) (coordinates : list (list float64)) (w : world) :
  parse_lines lines coordinates w
  = (match mapM coordinates_of (filter (fun l => atom_record l) lines) with
     | Some rows => Return (coordinates ++ rows)
     | None => Raise ValueError
     end, w).
Proof.
  revert coordinates. induction lines as [|line rest IH]; intros coordinates.
  - simpl. by rewrite app_nil_r.
  - cbn [parse_lines]. destruct (decide (atom_record line)) as [Hatom|Hatom].
    + rewrite filter_cons_True by done. apply Is_true_true in Hatom.
      unfold atom_record in Hatom. rewrite Hatom.
      rewrite (parse_line_floats line (fun row => parse_lines rest (coordinates ++ [row]))).
      simpl. destruct (coordinates_of line) as [row|]; [|done].
      rewrite IH. simpl. destruct (mapM _ _); [|done]. simpl.
      by rewrite <- app_assoc.
    + rewrite filter_cons_False by done. apply Is_true_false in Hatom.
      unfold atom_record in Hatom. rewrite Hatom. apply IH.
Qed.

Lemma np_array_nil (w : world) : np_array [] w = new_1d [] w.
Proof. reflexivity. Qed.

Lemma np_array_uniform (m : nat) (rows : list (list float64)) (w : world) :
  rows ≠ [] → Forall (fun r => length r = m) rows →
  np_array rows w = new_2d (length rows) m rows w.
Proof.
  intros Hne Hall. destruct rows as [|r rows]; [done|]. unfold np_array.
  assert (length r = m) as Hr by (by inversion Hall). rewrite Hr.
  rewrite (proj2 (forallb_forall _ _)); [done|].
  intros r' Hin. apply Nat.eqb_eq.
  rewrite Forall_forall in Hall. apply Hall. by apply list_elem_of_In.
Qed.

Lemma coordinates_of_rows_length (lines : list string) (rows : list (list float64)) :
  mapM coordinates_of lines = Some rows →
  length rows = length lines ∧ Forall (fun r => length r = 3%nat) rows.
Proof.
  intros H%mapM_Some. split; [symmetry; by eapply Forall2_length|].
  induction H as [|line row lines rows Hrow _ IH]; [done|]. constructor; [|done].
  apply coordinates_of_Some in Hrow as (x & y & z & -> & _). done.
Qed.

(** [parse_pdb] on a readable file: the outcome as a function of the lines. *)
Lemma parse_pdb_run (w : world) (file_path text : string) :
  files w !! file_path = Some text →
  match mapM coordinates_of (filter (fun l => atom_record l) (readlines text)) with
  | Some rows =>
      ∃ C w', parse_pdb file_path w = (Return C, w') ∧
        heap w ⊆ heap w' ∧ files w' = files w ∧
        len C = length rows ∧
        match rows with
        | [] => shape C = [0%nat] ∧ tolist (heap w') C = Some (Items [])
        | _ => shape C = [length rows; 3%nat] ∧ tolist (heap w') C = Some (Rows rows)
        end
  | None => parse_pdb file_path w = (Raise ValueError, w)
  end.
Proof.
  intros Hfile. unfold parse_pdb.
  assert (open_read file_path w = (Return text, w)) as Hopen
    by (unfold open_read; by rewrite Hfile).
  destruct (mapM _ _) as [rows|] eqn:Hrows.
  - apply coordinates_of_rows_length in Hrows as Hlen. destruct Hlen as [_ H3].
    destruct rows as [|r rows].
    + destruct (new_1d_run [] w) as (l & Hnew & Hfresh & Hread).
      eexists _, _. split.
      { erewrite bind_return by exact Hopen.
        erewrite bind_return by (rewrite parse_lines_run, Hrows; reflexivity).
        rewrite np_array_nil. exact Hnew. }
      simpl. split; [by apply insert_subseteq|]. done.
    + destruct (new_2d_run (length (r :: rows)) 3 (r :: rows) w) as (l & Hnew & Hfresh & Hread);
        [done..|].
      eexists _, _. split.
      { erewrite bind_return by exact Hopen.
        erewrite bind_return by (rewrite parse_lines_run, Hrows; reflexivity).
        rewrite (np_array_uniform 3) by done. exact Hnew. }
      simpl. split; [by apply insert_subseteq|]. done.
  - erewrite bind_return by exact Hopen.
    erewrite bind_raise; [done|]. by rewrite parse_lines_run, Hrows.
Qed.

(** A file with at least one atom record, all of them well formed, parses
    to a Coordinate Set. *)
Lemma parse_pdb_coordinate_set (w : world) (file_path text : string)
    (rows : list (list float64)) :
  files w !! file_path = Some text →
  mapM coordinates_of (filter (fun l => atom_record l) (readlines text)) = Some rows →
  rows ≠ [] →
  ∃ C w', parse_pdb file_path w = (Return C, w') ∧ coordinate_set (heap w') C rows.
Proof.
  intros Hfile Hrows Hne. pose proof (parse_pdb_run w file_path text Hfile) as Hrun.
  rewrite Hrows in Hrun. destruct Hrun as (C & w' & Hrun & _ & _ & _ & Hread).
  exists C, w'. split; [done|]. by destruct rows.
Qed.

(** C2.  For a well-formed input file (every line that begins with the
    marker has numbers in its three coordinate fields), [parse_pdb] returns
    one row per such line, in file order, the row of a line holding the
    numbers read from its columns 31-38, 39-46 and 47-54; the row count is
    the count of atom records. *)
Theorem parse_pdb_rows (w : world) (file_path text : string) :
  files w !! file_path = Some text →
  (∀ line, line ∈ readlines text → atom_record line → is_Some (coordinates_of line)) →
  ∃ C w' rows,
    parse_pdb file_path w = (Return C, w') ∧
    len C = length (filter (fun l => atom_record l) (readlines text)) ∧
    tolist (heap w') C = Some (match rows with [] => Items [] | _ => Rows rows end) ∧
    Forall2 (fun line row =>
               ∃ x y z, row = [x; y; z] ∧
                 float_of_str (columns line 31 38) = Some x ∧
                 float_of_str (columns line 39 46) = Some y ∧
                 float_of_str (columns line 47 54) = Some z)
            (filter (fun l => atom_record l) (readlines text)) rows.
Proof.
  intros Hfile Hwf. pose proof (parse_pdb_run w file_path text Hfile) as Hrun.
  destruct (mapM _ _) as [rows|] eqn:Hrows.
  - destruct Hrun as (C & w' & Hrun & _ & _ & Hlen & Hread).
    exists C, w', rows. split; [done|].
    apply coordinates_of_rows_length in Hrows as Hlen'. destruct Hlen' as [Hlen' _].
    split; [congruence|]. split.
    + destruct rows; by destruct Hread.
    + apply mapM_Some in Hrows. eapply Forall2_impl; [done|].
      intros line row. by apply coordinates_of_Some.
  - apply mapM_None in Hrows. apply Exists_exists in Hrows as (line & Hin & Hnone).
    apply list_elem_of_filter in Hin as [Hatom Hin].
    destruct (Hwf line Hin Hatom) as [row Hrow]. congruence.
Qed.

(** C7.  On a readable file, [parse_pdb] raises the conversion error exactly
    when some line that begins with the marker has malformed or missing
    numeric text in one of its three coordinate fields; it raises nothing
    else, and [main] does not catch the error: it ends with it. *)
Theorem parse_pdb_raises_iff (w : world) (file_path text : string) :
  files w !! file_path = Some text →
  ((parse_pdb file_path w).1 = Raise ValueError ↔
   ∃ line, line ∈ readlines text ∧ atom_record line ∧
     (float_of_str (columns line 31 38) = None ∨
      float_of_str (columns line 39 46) = None ∨
      float_of_str (columns line 47 54) = None)) ∧
  (∀ e, (parse_pdb file_path w).1 = Raise e → e = ValueError) ∧
  (∀ e w', parse_pdb input_pdb_path w = (Raise e, w') → main w = (Raise e, w')).
Proof.
  intros Hfile. pose proof (parse_pdb_run w file_path text Hfile) as Hrun.
  split; [|split].
  - destruct (mapM _ _) as [rows|] eqn:Hrows.
    + destruct Hrun as (C & w' & -> & _). split; [done|].
      intros (line & Hin & Hatom & Hbad%coordinates_of_None).
      apply mapM_Some in Hrows.
      assert (line ∈ filter (fun l => atom_record l) (readlines text)) as Hin'
        by (by apply list_elem_of_filter).
      apply list_elem_of_lookup in Hin' as [i Hi].
      destruct (Forall2_lookup_l _ _ _ _ _ Hrows Hi) as (row & _ & Hrow). congruence.
    + rewrite Hrun. split; [|done]. intros _.
      apply mapM_None in Hrows. apply Exists_exists in Hrows as (line & Hin & Hnone).
      apply list_elem_of_filter in Hin as [Hatom Hin].
      exists line. split; [done|]. split; [done|]. by apply coordinates_of_None.
  - intros e. destruct (mapM _ _) as [rows|].
    + by destruct Hrun as (C & w' & -> & _).
    + rewrite Hrun. by intros [= <-].
  - intros e w' Hraise. unfold main. by erewrite bind_raise.
Qed.

(** ** Stacking and tiling *)

Lemma np_vstack_three (v1 v2 v3 : ndarray) (w : world) (n m : nat)
    (r1 r2 r3 : list (list float64)) :
  shape v1 = [n; m] → shape v2 = [n; m] → shape v3 = [n; m] →
  tolist (heap w) v1 = Some (Rows r1) →
  tolist (heap w) v2 = Some (Rows r2) →
  tolist (heap w) v3 = Some (Rows r3) →
  ∃ a w',
    np_vstack [v1; v2; v3] w = (Return a, w') ∧
    heap w ⊆ heap w' ∧ files w' = files w ∧
    shape a = [(3 * n)%nat; m] ∧
    tolist (heap w') a = Some (Rows (r1 ++ r2 ++ r3)).
Proof.
  intros Hs1 Hs2 Hs3 H1 H2 H3.
  assert (∀ v r, shape v = [n; m] → tolist (heap w) v = Some (Rows r) →
            nrows v = n ∧ ncols v = m ∧ length r = n ∧ Forall (fun x => length x = m) r)
    as Hdims.
  { intros v r Hs Hr. unfold shape, nrows, ncols, tolist in *.
    destruct (lay v) as [?|n' m' s0 s1]; [done|]. injection Hs as -> ->.
    destruct (heap w !! base v); [|done]. split; [done|]. split; [done|].
    by eapply view_of_rows_length. }
  destruct (Hdims _ _ Hs1 H1) as (Hn1 & Hm1 & Hl1 & Hf1).
  destruct (Hdims _ _ Hs2 H2) as (Hn2 & Hm2 & Hl2 & Hf2).
  destruct (Hdims _ _ Hs3 H3) as (Hn3 & Hm3 & Hl3 & Hf3).
  destruct (new_2d_run (3 * n) m (r1 ++ r2 ++ r3) w) as (l & Hnew & Hfresh & Hread).
  { rewrite !length_app. lia. }
  { by rewrite !Forall_app. }
  eexists _, _. split.
  { unfold np_vstack. erewrite bind_return by reflexivity.
    erewrite bind_return by (simpl; rewrite H1, H2, H3; reflexivity).
    cbn [forallb]. rewrite Hm1, Hm2, Hm3, Nat.eqb_refl. cbn [andb].
    cbn [fmap list_fmap sum_list sum_list_with rows_2d concat]. rewrite Hn1, Hn2, Hn3.
    rewrite app_nil_r.
    replace (n + (n + (n + 0)))%nat with (3 * n)%nat by lia. exact Hnew. }
  simpl. split; [by apply insert_subseteq|]. done.
Qed.

Lemma np_tile_three_rows (a : ndarray) (w : world) (n m : nat) (rows : list (list float64)) :
  shape a = [n; m] →
  tolist (heap w) a = Some (Rows rows) →
  ∃ t w',
    np_tile a (3%nat, 1%nat) w = (Return t, w') ∧
    heap w ⊆ heap w' ∧ files w' = files w ∧
    shape t = [(3 * n)%nat; m] ∧
    tolist (heap w') t = Some (Rows (rows ++ rows ++ rows)).
Proof.
  intros Hs Hr.
  assert (nrows a = n ∧ ncols a = m ∧ length rows = n ∧ Forall (fun x => length x = m) rows)
    as (Hn & Hm & Hl & Hf).
  { unfold shape, nrows, ncols, tolist in *.
    destruct (lay a) as [?|n' m' s0 s1]; [done|]. injection Hs as -> ->.
    destruct (heap w !! base a); [|done]. split; [done|]. split; [done|].
    by eapply view_of_rows_length. }
  destruct (new_2d_run (3 * n) m (rows ++ rows ++ rows) w) as (l & Hnew & Hfresh & Hread).
  { rewrite !length_app. lia. }
  { by rewrite !Forall_app. }
  eexists _, _. split.
  { unfold np_tile. erewrite bind_return by reflexivity.
    erewrite bind_return by (rewrite Hr; reflexivity). cbn beta iota.
    rewrite Hn, Hm. cbn [rows_2d replicate concat].
    assert ((fun r : list float64 => r ++ []) <$> rows = rows) as ->.
    { rewrite <- (list_fmap_id rows) at 2. apply list_fmap_ext.
      intros ? r _. apply app_nil_r. }
    rewrite app_nil_r. replace (1 * m)%nat with m by lia. exact Hnew. }
  simpl. split; [by apply insert_subseteq|]. done.
Qed.

(** C6.  For an [N]-row Coordinate Set, the stacked input built in [main]
    (the three views, one block after the other) has shape [(3N, 3)], and so
    has the tiled target, whose rows [0..N-1], [N..2N-1] and [2N..3N-1] are
    each the [N] rows of the original. *)
Theorem training_data_shapes (w : world) (C : ndarray) (rows : list (list float64)) :
  coordinate_set (heap w) C rows →
  ∃ input_data output_data w' rows_in rows2,
    training_data C w = (Return (input_data, output_data), w') ∧
    shape input_data = [(3 * length rows)%nat; 3%nat] ∧
    tolist (heap w') input_data = Some (Rows rows_in) ∧
    length rows_in = (3 * length rows)%nat ∧
    rows_in = rows ++ rows2 ++ (reverse <$> rows) ∧ rows2 ≡ₚ rows ∧
    shape output_data = [(3 * length rows)%nat; 3%nat] ∧
    tolist (heap w') output_data = Some (Rows (rows ++ rows ++ rows)) ∧
    ∀ k i, (k < 3)%nat → (i < length rows)%nat →
      (rows ++ rows ++ rows) !! (k * length rows + i)%nat = rows !! i.
Proof.
  intros Hcs. pose proof Hcs as [Hshape _].
  apply coordinate_set_inv in Hcs as ((s0 & s1 & Hlay) & Hread & _).
  destruct (generate_views_2d C w _ _ s0 s1 rows Hlay Hread)
    as (v2 & v3 & w1 & rows2 & Hviews & Hsub1 & _ & _ & _ & Hs2 & Hs3 & Hperm & Hv2 & Hv3 & Hv1).
  destruct (np_vstack_three C v2 v3 w1 _ _ rows rows2 (reverse <$> rows)
              Hshape Hs2 Hs3 Hv1 Hv2 Hv3)
    as (inp & w2 & Hstack & Hsub2 & _ & Hsi & Hri).
  destruct (np_tile_three_rows C w2 _ _ rows Hshape (tolist_mono _ _ _ _ Hsub2 Hv1))
    as (out & w3 & Htile & Hsub3 & _ & Hso & Hro).
  exists inp, out, w3, (rows ++ rows2 ++ (reverse <$> rows)), rows2.
  split.
  { unfold training_data. erewrite bind_return by exact Hviews. cbn beta iota.
    erewrite bind_return by exact Hstack. erewrite bind_return by exact Htile. done. }
  split; [done|]. split; [by eapply tolist_mono|].
  split; [rewrite !length_app, length_fmap, (Permutation_length Hperm); lia|].
  split; [done|]. split; [done|]. split; [done|]. split; [done|].
  intros k i Hk Hi.
  destruct k as [|[|[|k]]]; [| | |lia]; simpl.
  - by rewrite lookup_app_l.
  - rewrite lookup_app_r by lia. rewrite lookup_app_l by lia. f_equal. lia.
  - rewrite lookup_app_r by lia. rewrite lookup_app_r by lia. f_equal. lia.
Qed.

(** ** The degenerate input *)

(** C1, as stated, fails: the file without atom records parses to an empty
    array of one axis, shape [(0,)], and on that array [generate_views]
    raises: axis 1 is out of bounds for the flip. *)
Lemma no_atoms_views_raise :
  ∃ C w1 w2,
    parse_pdb input_pdb_path world_no_atoms = (Return C, w1) ∧
    shape C = [0%nat] ∧
    tolist (heap w1) C = Some (Items []) ∧
    generate_views C w1 = (Raise AxisError, w2).
Proof.
  eexists _, _, _. split; [vm_compute; reflexivity|].
  split; [reflexivity|]. split; [vm_compute; reflexivity|].
  vm_compute. reflexivity.
Qed.

(** C1, amended.  A file without atom records parses to an empty array, of
    shape [(0,)] and length 0; and [generate_views] is total on every array
    of two axes, the empty ones included: it returns three views of the
    length of its argument, which read as no rows when that length is 0. *)
Theorem no_atoms_parse_empty_views_total_2d (w : world) (file_path text : string)
    (w2 : world) (C2 : ndarray) (n m : nat) (rows : list (list float64)) :
  files w !! file_path = Some text →
  filter (fun l => atom_record l) (readlines text) = [] →
  shape C2 = [n; m] →
  tolist (heap w2) C2 = Some (Rows rows) →
  (∃ C w', parse_pdb file_path w = (Return C, w') ∧
     shape C = [0%nat] ∧ len C = 0%nat ∧ tolist (heap w') C = Some (Items [])) ∧
  (∃ view1 view2 view3 w2',
     generate_views C2 w2 = (Return (view1, view2, view3), w2') ∧
     len view1 = n ∧ len view2 = n ∧ len view3 = n ∧
     (n = 0%nat →
      tolist (heap w2') view1 = Some (Rows []) ∧
      tolist (heap w2') view2 = Some (Rows []) ∧
      tolist (heap w2') view3 = Some (Rows []))).
Proof.
  intros Hfile Hnone Hshape Hread. split.
  - pose proof (parse_pdb_run w file_path text Hfile) as Hrun.
    rewrite Hnone in Hrun. simpl in Hrun.
    destruct Hrun as (C & w' & Hrun & _ & _ & Hlen & Hs & Hr). by exists C, w'.
  - assert (∃ s0 s1, lay C2 = Dim2 n m s0 s1) as (s0 & s1 & Hlay).
    { unfold shape in Hshape. destruct (lay C2) as [|n' m' s0 s1]; [done|].
      injection Hshape as -> ->. by eauto. }
    destruct (generate_views_2d C2 w2 n m s0 s1 rows Hlay Hread)
      as (v2 & v3 & w2' & rows2 & Hrun & _ & _ & _ & _ & Hs2 & Hs3 & Hperm & Hv2 & Hv3 & Hv1).
    assert (∀ v, shape v = [n; m] → len v = n) as Hlen.
    { intros v Hv. unfold shape, len in *. destruct (lay v); [done|]. by injection Hv. }
    assert (length rows = n) as Hn.
    { unfold tolist in Hread. rewrite Hlay in Hread.
      destruct (heap w2 !! base C2); [|done]. by eapply view_of_rows_length. }
    exists C2, v2, v3, w2'. split; [done|].
    split; [by apply Hlen|]. split; [by apply Hlen|]. split; [by apply Hlen|].
    intros ->. destruct rows; [|done].
    apply Permutation_nil_r in Hperm as ->. done.
Qed.

(** ** The split *)

Lemma tolist_Rows_dims (h : gmap positive (list float64)) (a : ndarray)
    (rows : list (list float64)) :
  tolist h a = Some (Rows rows) →
  len a = length rows ∧ nrows a = length rows ∧
  Forall (fun r => length r = ncols a) rows.
Proof.
  intros Hread. destruct (tolist_Rows_lay _ _ _ Hread) as (n & m & s0 & s1 & Hlay).
  unfold tolist, len, nrows, ncols in *. rewrite Hlay in *.
  destruct (h !! base a); [|done].
  apply view_of_rows_length in Hread as [<- Hm]. done.
Qed.

Lemma index_rows_2d (a : ndarray) (idx : list nat) (w : world) (rows : list (list float64)) :
  tolist (heap w) a = Some (Rows rows) →
  ∃ b l,
    index_rows a idx w = (Return b, set_heap (<[l := concat (take_rows rows idx)]> (heap w)) w) ∧
    heap w !! l = None ∧
    tolist (<[l := concat (take_rows rows idx)]> (heap w)) b = Some (Rows (take_rows rows idx)).
Proof.
  intros Hread. destruct (tolist_Rows_dims _ _ _ Hread) as (_ & _ & Hm).
  destruct (new_2d_run (length (take_rows rows idx)) (ncols a) (take_rows rows idx) w)
    as (l & Hnew & Hfresh & Hl); [done|by apply take_rows_Forall|].
  eexists _, l. split; [|done].
  unfold index_rows. erewrite bind_return by reflexivity.
  erewrite bind_return by (rewrite Hread; reflexivity). exact Hnew.
Qed.

(** The four arrays of a seeded split read as a function of the data: the
    store they are allocated in, the files and the state of the global random
    source play no part. *)
Lemma train_test_split_seeded (RandomState : Z → rng) (seed : Z) (test_size : float64)
    (X y : ndarray) (w : world) (xs ys : list (list float64)) :
  tolist (heap w) X = Some (Rows xs) →
  tolist (heap w) y = Some (Rows ys) →
  read_split (train_test_split RandomState X y test_size (Some seed) w)
  = split_of_data RandomState seed test_size xs ys.
Proof.
  intros HX Hy.
  destruct (tolist_Rows_dims _ _ _ HX) as (HlX & _ & _).
  destruct (tolist_Rows_dims _ _ _ Hy) as (Hly & _ & _).
  unfold train_test_split, split_of_data. rewrite HlX, Hly.
  destruct (negb (length xs =? length ys)%nat); [done|].
  destruct (validate_shuffle_split (length xs) test_size) as [[n_train n_test]|e] eqn:Hval.
  2: { by erewrite bind_raise by reflexivity. }
  erewrite bind_return by reflexivity. cbn beta iota.
  erewrite bind_return by reflexivity.
  destruct (split_permutation _ n_train n_test) as [train test].
  destruct (index_rows_2d X train w xs HX) as (a1 & l1 & Hrun1 & Hf1 & Hr1).
  set (h1 := <[l1 := concat (take_rows xs train)]> (heap w)) in *.
  assert (heap w ⊆ h1) as Hs1 by (by apply insert_subseteq).
  destruct (index_rows_2d X test (set_heap h1 w) xs (tolist_mono _ _ _ _ Hs1 HX))
    as (a2 & l2 & Hrun2 & Hf2 & Hr2).
  simpl in Hrun2, Hf2, Hr2.
  set (h2 := <[l2 := concat (take_rows xs test)]> h1) in *.
  assert (h1 ⊆ h2) as Hs2 by (by apply insert_subseteq).
  destruct (index_rows_2d y train (set_heap h2 (set_heap h1 w)) ys) as (a3 & l3 & Hrun3 & Hf3 & Hr3).
  { simpl. eapply tolist_mono; [exact Hs2|]. by eapply tolist_mono. }
  simpl in Hrun3, Hf3, Hr3.
  set (h3 := <[l3 := concat (take_rows ys train)]> h2) in *.
  assert (h2 ⊆ h3) as Hs3 by (by apply insert_subseteq).
  destruct (index_rows_2d y test (set_heap h3 (set_heap h2 (set_heap h1 w))) ys)
    as (a4 & l4 & Hrun4 & Hf4 & Hr4).
  { simpl. eapply tolist_mono; [exact Hs3|]. eapply tolist_mono; [exact Hs2|].
    by eapply tolist_mono. }
  simpl in Hrun4, Hf4, Hr4.
  set (h4 := <[l4 := concat (take_rows ys test)]> h3) in *.
  assert (h3 ⊆ h4) as Hs4 by (by apply insert_subseteq).
  erewrite bind_return by exact Hrun1.
  erewrite bind_return by exact Hrun2.
  erewrite bind_return by exact Hrun3.
  erewrite bind_return by exact Hrun4.
  simpl. fold h4.
  assert (h2 ⊆ h4) as Hs24 by (by etrans).
  assert (h1 ⊆ h4) as Hs14 by (by etrans).
  rewrite (tolist_mono h1 h4 a1 _ Hs14 Hr1), (tolist_mono h2 h4 a2 _ Hs24 Hr2).
  by rewrite (tolist_mono h3 h4 a3 _ Hs4 Hr3), Hr4.
Qed.

Lemma split_permutation_partition (permutation : list nat) (n n_train n_test : nat) :
  permutation ≡ₚ seq 0 n → (n_train + n_test = n)%nat →
  (split_permutation permutation n_train n_test).1
    ++ (split_permutation permutation n_train n_test).2 ≡ₚ seq 0 n ∧
  length (split_permutation permutation n_train n_test).1 = n_train ∧
  length (split_permutation permutation n_train n_test).2 = n_test.
Proof.
  intros Hp Hn. unfold split_permutation. simpl.
  assert (length permutation = n) as Hlen by (by rewrite Hp, length_seq).
  split; [|rewrite !length_take, length_drop; lia].
  rewrite take_ge by (rewrite length_drop; lia).
  by rewrite Permutation_app_comm, take_drop.
Qed.

Lemma binary_round_aux_nonneg (m e : Z) (l : location) :
  is_negative (binary_round_aux prec64 emax64 false m e l) = false.
Proof.
  unfold binary_round_aux.
  destruct (shr_fexp _ _ _ _ _) as [mrs' e'].
  destruct (shr_fexp _ _ _ _ _) as [mrs'' e''].
  destruct (shr_m mrs''); [done| |done]. by destruct (_ <=? _).
Qed.

Lemma float_of_Z_nonneg (n : Z) : 0 ≤ n → is_negative (float_of_Z n) = false.
Proof.
  intros Hn. unfold float_of_Z, binary_normalize. destruct n as [|p|p]; [done| |lia].
  unfold binary_round. destruct (shl_align _ _ _). apply binary_round_aux_nonneg.
Qed.

Lemma SFmul_nonneg (x y : float64) :
  is_negative x = false → is_negative y = false →
  is_negative (SFmul prec64 emax64 x y) = false.
Proof.
  destruct x as [sx|sx| |sx mx ex], y as [sy|sy| |sy my ey]; simpl;
    try done; try (by intros -> ->).
  intros -> ->. apply binary_round_aux_nonneg.
Qed.

Lemma ceil_nonneg (x : float64) (k : Z) :
  is_negative x = false → ceil x = Some k → 0 ≤ k.
Proof.
  destruct x as [s|s| |s m e]; simpl; try done; [by intros _ [= <-]|].
  intros -> [= <-]. destruct (0 <=? e) eqn:He.
  - apply Z.leb_le in He. assert (0 < 2 ^ e) by (by apply Z.pow_pos_nonneg). lia.
  - apply Z.leb_gt in He. assert (0 < 2 ^ (- e)) by (apply Z.pow_pos_nonneg; lia).
    assert (Z.neg m / 2 ^ (- e) < 0) by (apply Z.div_lt_upper_bound; lia). lia.
Qed.

(** With the test fraction 0.2 the two sizes add up to the number of rows,
    and the training part is not empty. *)
Lemma validate_shuffle_split_sizes (n n_train n_test : nat) :
  validate_shuffle_split n test_size_02 = Return (n_train, n_test) →
  (0 < n_train ∧ n_train + n_test = n)%nat.
Proof.
  unfold validate_shuffle_split.
  destruct (ceil _) as [k|] eqn:Hceil; [|done].
  apply ceil_nonneg in Hceil; [|apply SFmul_nonneg; [done|apply float_of_Z_nonneg; lia]].
  destruct (Z.of_nat n - k <=? 0) eqn:Hk; [done|]. intros [= <- <-].
  apply Z.leb_gt in Hk. lia.
Qed.

(** C9.  The split of [train_model] is reproducible: two invocations on
    identical input and target data give the same partition (the same
    exception, or the same rows in the training and in the test parts),
    whatever the stores the data live in and whatever the states of the global
    random source, which the permutation view draws from.  The parts are the
    rows picked by two index lists that together hold every row number once,
    the training list being non-empty. *)
Theorem split_is_reproducible (RandomState : Z → rng) (w1 w2 : world)
    (X1 y1 X2 y2 : ndarray) (xs ys : list (list float64)) :
  tolist (heap w1) X1 = Some (Rows xs) → tolist (heap w1) y1 = Some (Rows ys) →
  tolist (heap w2) X2 = Some (Rows xs) → tolist (heap w2) y2 = Some (Rows ys) →
  read_split (train_model RandomState X1 y1 w1)
  = read_split (train_model RandomState X2 y2 w2) ∧
  ∀ parts, read_split (train_model RandomState X1 y1 w1) = Return parts →
    ∃ train test,
      train ++ test ≡ₚ seq 0 (length xs) ∧ train ≠ [] ∧
      parts = (Some (Rows (take_rows xs train)), Some (Rows (take_rows xs test)),
               Some (Rows (take_rows ys train)), Some (Rows (take_rows ys test))).
Proof.
  intros HX1 Hy1 HX2 Hy2. unfold train_model.
  rewrite (train_test_split_seeded _ _ _ _ _ _ xs ys HX1 Hy1).
  rewrite (train_test_split_seeded _ _ _ _ _ _ xs ys HX2 Hy2).
  split; [done|]. intros parts. unfold split_of_data.
  destruct (negb _); [done|].
  destruct (validate_shuffle_split _ _) as [[n_train n_test]|] eqn:Hval; [|done].
  apply validate_shuffle_split_sizes in Hval as [Hpos Hsum].
  pose proof (shuffle_Permutation (seq 0 (length xs)) (RandomState 42)) as Hp.
  destruct (split_permutation_partition _ _ n_train n_test Hp Hsum) as (Hpart & Hlt & _).
  destruct (split_permutation _ n_train n_test) as [train test].
  intros [= <-]. exists train, test. split; [done|]. split; [|done].
  intros ->. simpl in Hlt. lia.
Qed.

(** ** Text *)

#[local] Arguments String.append !_ _ / : simpl nomatch.

Lemma append_nil_r (s : string) : s +:+ "" = s.
Proof. induction s as [|c s IH]; [done|]. cbn. by rewrite IH. Qed.

Lemma append_assoc (a b c : string) : (a +:+ b) +:+ c = a +:+ (b +:+ c).
Proof. induction a as [|x a IH]; [done|]. cbn. by rewrite IH. Qed.

Lemma length_append (a b : string) :
  String.length (a +:+ b) = (String.length a + String.length b)%nat.
Proof. induction a as [|x a IH]; [done|]. cbn. by rewrite IH. Qed.

Lemma all_chars_append (P : ascii → bool) (a b : string) :
  all_chars P (a +:+ b) = all_chars P a && all_chars P b.
Proof. induction a as [|x a IH]; [done|]. cbn. by rewrite IH, andb_assoc. Qed.

Lemma all_chars_impl (P Q : ascii → bool) (s : string) :
  (∀ c, P c = true → Q c = true) → all_chars P s = true → all_chars Q s = true.
Proof.
  intros HPQ. induction s as [|c s IH]; [done|]. cbn.
  intros [Hc Hs]%andb_prop. by rewrite (HPQ c Hc), IH.
Qed.


Lemma length_spaces (k : nat) : String.length (spaces k) = k.
Proof. induction k as [|k IH]; [done|]. cbn. by rewrite IH. Qed.


Lemma length_rjust (s : string) (width : nat) :
  String.length (rjust s width) = (width `max` String.length s)%nat.
Proof. unfold rjust. rewrite length_append, length_spaces. lia. Qed.




(** ** Decimal digits *)

Lemma digit_char_is_digit (d : Z) : 0 ≤ d < 10 → is_digit (digit_char d) = true.
Proof.
  intros Hd.
  assert (d = 0 ∨ d = 1 ∨ d = 2 ∨ d = 3 ∨ d = 4 ∨ d = 5 ∨ d = 6 ∨ d = 7 ∨ d = 8 ∨ d = 9)
    as Hcases by lia.
  repeat (destruct Hcases as [->|Hcases]; [reflexivity|]). by subst.
Qed.

Lemma digit_char_value (d : Z) :
  0 ≤ d < 10 → Z.of_nat (nat_of_ascii (digit_char d)) - 48 = d.
Proof.
  intros Hd.
  assert (d = 0 ∨ d = 1 ∨ d = 2 ∨ d = 3 ∨ d = 4 ∨ d = 5 ∨ d = 6 ∨ d = 7 ∨ d = 8 ∨ d = 9)
    as Hcases by lia.
  repeat (destruct Hcases as [->|Hcases]; [reflexivity|]). by subst.
Qed.

Lemma dec_digits_acc (fuel : nat) (n : Z) (acc : string) :
  dec_digits fuel n acc = dec_digits fuel n "" +:+ acc.
Proof.
  revert n acc. induction fuel as [|fuel IH]; intros n acc; [done|]. cbn.
  destruct (n <? 10); [done|].
  rewrite (IH _ (String _ acc)), (IH _ (String _ "")), append_assoc. done.
Qed.

Lemma dec_digits_all_digits (fuel : nat) (n : Z) (acc : string) :
  all_chars is_digit acc = true → all_chars is_digit (dec_digits fuel n acc) = true.
Proof.
  revert n acc. induction fuel as [|fuel IH]; intros n acc Hacc; [done|]. cbn.
  assert (all_chars is_digit (String (digit_char (n `mod` 10)) acc) = true) as Hacc'.
  { cbn. rewrite digit_char_is_digit, Hacc; [done|]. apply Z.mod_pos_bound. lia. }
  destruct (n <? 10); [done|]. by apply IH.
Qed.

Lemma dec_digits_length_ge (fuel : nat) (n : Z) (acc : string) :
  (String.length acc + 1 ≤ String.length (dec_digits (S fuel) n acc))%nat.
Proof.
  revert n acc. induction fuel as [|fuel IH]; intros n acc.
  - cbn. destruct (n <? 10); cbn; lia.
  - cbn [dec_digits]. destruct (n <? 10); [cbn; lia|].
    etrans; [|apply IH]. cbn. lia.
Qed.

Lemma dec_digits_length_le (fuel : nat) (n : Z) (acc : string) (k : nat) :
  0 ≤ n < 10 ^ Z.of_nat (S k) →
  (String.length (dec_digits fuel n acc) ≤ String.length acc + S k)%nat.
Proof.
  revert n acc k. induction fuel as [|fuel IH]; intros n acc k Hn; [cbn; lia|]. cbn.
  destruct (n <? 10) eqn:Hlt; [cbn; lia|]. apply Z.ltb_ge in Hlt.
  destruct k as [|k]; [change (10 ^ Z.of_nat 1) with 10 in Hn; lia|].
  etrans; [apply (IH _ _ k)|cbn; lia].
  replace (Z.of_nat (S (S k))) with (Z.succ (Z.of_nat (S k))) in Hn by lia.
  rewrite Z.pow_succ_r in Hn by lia.
  split; [apply Z.div_pos; lia|]. apply Z.div_lt_upper_bound; lia.
Qed.

(** With enough fuel, the digits written denote the number. *)
Lemma dec_digits_value (fuel : nat) (n a : Z) :
  0 ≤ n < 10 ^ Z.of_nat fuel →
  decimal_value a (dec_digits fuel n "")
  = a * 10 ^ Z.of_nat (String.length (dec_digits fuel n "")) + n.
Proof.
  revert n a. induction fuel as [|fuel IH]; intros n a Hn.
  - change (10 ^ Z.of_nat 0) with 1 in Hn. cbn. lia.
  - cbn [dec_digits]. destruct (n <? 10) eqn:Hlt.
    + apply Z.ltb_lt in Hlt. cbn. rewrite Z.mod_small by lia.
      rewrite digit_char_value by lia. lia.
    + apply Z.ltb_ge in Hlt. rewrite dec_digits_acc.
      assert (∀ s t b, decimal_value b (s +:+ t) = decimal_value (decimal_value b s) t)
        as Happ.
      { intros s. induction s as [|c s IHs]; intros t b; [done|]. cbn. apply IHs. }
      rewrite Happ, IH, length_append; cycle 1.
      { replace (Z.of_nat (S fuel)) with (Z.succ (Z.of_nat fuel)) in Hn by lia.
        rewrite Z.pow_succ_r in Hn by lia.
        split; [apply Z.div_pos; lia|]. apply Z.div_lt_upper_bound; lia. }
      cbn [decimal_value String.length].
      rewrite digit_char_value by (apply Z.mod_pos_bound; lia).
      rewrite Nat.add_1_r, Nat2Z.inj_succ, Z.pow_succ_r by lia.
      pose proof (Z.div_mod n 10 ltac:(lia)). lia.
Qed.

Lemma str_of_Z_fuel (n : Z) : 0 ≤ n → n < 10 ^ Z.of_nat (S (Z.to_nat (Z.log2 n))).
Proof.
  intros Hn. destruct (decide (n = 0)) as [->|Hne]; [done|].
  pose proof (Z.log2_nonneg n). pose proof (Z.log2_spec n ltac:(lia)) as [_ Hlt].
  eapply Z.lt_le_trans; [exact Hlt|].
  rewrite Nat2Z.inj_succ, Z2Nat.id by done.
  apply Z.pow_le_mono_l. lia.
Qed.

(** [str(n)] is made of digits and denotes [n]. *)
Lemma str_of_Z_digits (n : Z) :
  0 ≤ n →
  all_chars is_digit (str_of_Z n) = true ∧
  (1 ≤ String.length (str_of_Z n))%nat ∧
  decimal_value 0 (str_of_Z n) = n.
Proof.
  intros Hn. unfold str_of_Z. split; [by apply dec_digits_all_digits|].
  split; [apply (dec_digits_length_ge _ n "")|].
  rewrite dec_digits_value; [lia|]. split; [done|]. by apply str_of_Z_fuel.
Qed.

Lemma str_of_Z_length_le (n : Z) (k : nat) :
  0 ≤ n < 10 ^ Z.of_nat (S k) → (String.length (str_of_Z n) ≤ S k)%nat.
Proof. intros Hn. apply (dec_digits_length_le _ n "" k Hn). Qed.

Lemma length_last_digits (k : nat) (n : Z) (acc : string) :
  String.length (last_digits k n acc) = (k + String.length acc)%nat.
Proof.
  revert n acc. induction k as [|k IH]; intros n acc; [done|]. cbn.
  rewrite IH. cbn. lia.
Qed.

Lemma last_digits_all_digits (k : nat) (n : Z) (acc : string) :
  all_chars is_digit acc = true → all_chars is_digit (last_digits k n acc) = true.
Proof.
  revert n acc. induction k as [|k IH]; intros n acc Hacc; [done|]. cbn. apply IH.
  cbn. rewrite digit_char_is_digit, Hacc; [done|]. apply Z.mod_pos_bound. lia.
Qed.

Lemma decimal_value_append (a : Z) (s t : string) :
  decimal_value a (s +:+ t) = decimal_value (decimal_value a s) t.
Proof. revert a. induction s as [|c s IH]; intros a; [done|]. cbn. apply IH. Qed.

Lemma last_digits_acc (k : nat) (n : Z) (acc : string) :
  last_digits k n acc = last_digits k n "" +:+ acc.
Proof.
  revert n acc. induction k as [|k IH]; intros n acc; [done|]. cbn.
  rewrite (IH _ (String _ acc)), (IH _ (String _ "")), append_assoc. done.
Qed.

Lemma last_digits_value (k : nat) (n a : Z) :
  decimal_value a (last_digits k n "") = a * 10 ^ Z.of_nat k + n `mod` 10 ^ Z.of_nat k.
Proof.
  revert n a. induction k as [|k IH]; intros n a.
  - change (10 ^ Z.of_nat 0) with 1. rewrite Z.mod_1_r. cbn. lia.
  - cbn [last_digits]. rewrite last_digits_acc, decimal_value_append, IH.
    cbn [decimal_value]. rewrite digit_char_value by (apply Z.mod_pos_bound; lia).
    rewrite Nat2Z.inj_succ, Z.pow_succ_r by lia.
    assert (0 < 10 ^ Z.of_nat k) as Hpos by (apply Z.pow_pos_nonneg; lia).
    rewrite Z.rem_mul_r by lia. lia.
Qed.

(** ** The length of a number in digits *)

Lemma is_digit_value (c : ascii) :
  is_digit c = true → 0 ≤ Z.of_nat (nat_of_ascii c) - 48 ≤ 9.
Proof.
  unfold is_digit. intros [H1%Nat.leb_le H2%Nat.leb_le]%andb_prop. lia.
Qed.

Lemma decimal_value_lt (s : string) (a : Z) :
  all_chars is_digit s = true → 0 ≤ a →
  a * 10 ^ Z.of_nat (String.length s) ≤ decimal_value a s
  < (a + 1) * 10 ^ Z.of_nat (String.length s).
Proof.
  revert a. induction s as [|c s IH]; intros a Hs Ha; [cbn; lia|].
  cbn in Hs. apply andb_prop in Hs as [Hc%is_digit_value Hs].
  cbn [decimal_value String.length].
  specialize (IH (10 * a + (Z.of_nat (nat_of_ascii c) - 48)) Hs ltac:(lia)).
  replace (Z.of_nat (S (String.length s))) with (Z.succ (Z.of_nat (String.length s))) by lia.
  rewrite Z.pow_succ_r by lia.
  assert (0 < 10 ^ Z.of_nat (String.length s)) by (apply Z.pow_pos_nonneg; lia).
  nia.
Qed.

Lemma str_of_Z_length_ge (n : Z) (k : nat) :
  10 ^ Z.of_nat k ≤ n → (S k ≤ String.length (str_of_Z n))%nat.
Proof.
  intros Hn. assert (0 < 10 ^ Z.of_nat k) by (apply Z.pow_pos_nonneg; lia).
  destruct (str_of_Z_digits n ltac:(lia)) as (Hdig & _ & Hval).
  pose proof (decimal_value_lt _ 0 Hdig ltac:(done)) as [_ Hlt]. rewrite Hval in Hlt.
  destruct (decide (S k ≤ String.length (str_of_Z n))%nat) as [|Hshort]; [done|].
  assert (10 ^ Z.of_nat (String.length (str_of_Z n)) ≤ 10 ^ Z.of_nat k)
    by (apply Z.pow_le_mono_r; lia).
  lia.
Qed.

Lemma str_of_Z_length (n : Z) (k : nat) :
  10 ^ Z.of_nat k ≤ n < 10 ^ Z.of_nat (S k) → String.length (str_of_Z n) = S k.
Proof.
  intros [Hge Hlt]. assert (0 < 10 ^ Z.of_nat k) by (apply Z.pow_pos_nonneg; lia).
  pose proof (str_of_Z_length_ge n k Hge). pose proof (str_of_Z_length_le n k ltac:(lia)).
  lia.
Qed.

Lemma str_of_Z_length_le_iff (q : Z) (k : nat) :
  0 ≤ q → (String.length (str_of_Z q) ≤ S k)%nat ↔ q < 10 ^ Z.of_nat (S k).
Proof.
  intros Hq. split.
  - intros Hlen. destruct (decide (q < 10 ^ Z.of_nat (S k))) as [|Hge]; [done|].
    pose proof (str_of_Z_length_ge q (S k) ltac:(lia)). lia.
  - intros Hlt. by apply str_of_Z_length_le.
Qed.

(** The digits of a number have no leading zero. *)
Lemma str_of_Z_canonical (n : Z) :
  0 ≤ n →
  str_of_Z n = "0" ∨ ∃ c rest, str_of_Z n = String c rest ∧ c ≠ "0"%char.
Proof.
  intros Hn. destruct (str_of_Z_digits n Hn) as (Hdig & Hlen & Hval).
  destruct (str_of_Z n) as [|c rest] eqn:Hs; [cbn in Hlen; lia|].
  destruct (decide (c = "0"%char)) as [->|Hc]; [|right; by eauto].
  destruct rest as [|c' rest']; [by left|]. exfalso.
  cbn in Hdig.
  assert (decimal_value 0 (String c' rest') = n) as Hval' by exact Hval.
  pose proof (decimal_value_lt (String c' rest') 0 Hdig ltac:(done)) as [_ Hlt].
  rewrite Hval' in Hlt.
  pose proof (proj2 (str_of_Z_length_le_iff n (String.length rest') Hn)) as Hle.
  rewrite Hs in Hle. cbn [String.length] in Hle, Hlt.
  specialize (Hle ltac:(lia)). lia.
Qed.

(** ** The fields of a record line *)

Lemma format_d_number_field (n : Z) : 0 ≤ n → number_field (format_d n 4) n.
Proof.
  intros Hn. destruct (str_of_Z_digits n Hn) as (Hdig & Hlen & Hval).
  exists (4 - String.length (str_of_Z n))%nat, (str_of_Z n).
  split; [done|]. split; [done|]. split; [done|].
  split; [by apply str_of_Z_canonical|].
  unfold format_d. rewrite length_rjust. split; [done|]. split; [lia|].
  intros Hlt. pose proof (str_of_Z_length_le n 3 ltac:(split; [done|exact Hlt])). lia.
Qed.

Lemma round_half_even_nonneg (num den : Z) :
  0 ≤ num → 0 < den → 0 ≤ round_half_even num den.
Proof.
  intros Hnum Hden. unfold round_half_even.
  pose proof (Z.div_pos num den Hnum Hden).
  destruct (_ ?= _); [destruct (Z.even _)|..]; cbv beta iota; lia.
Qed.

(** The rounding is to a nearest integer: twice the error is at most one
    unit. *)
Lemma round_half_even_nearest (num den : Z) :
  0 < den → Z.abs (2 * (round_half_even num den * den - num)) ≤ den.
Proof.
  intros Hden. unfold round_half_even.
  pose proof (Z.div_mod num den ltac:(lia)) as Hdm.
  pose proof (Z.mod_pos_bound num den Hden) as Hr.
  set (q := num / den) in *. set (r := num `mod` den) in *. clearbody q r.
  destruct (Z.compare_spec (2 * r) den) as [Hcmp|Hcmp|Hcmp]; cbv beta iota;
    [destruct (Z.even q)|..]; lia.
Qed.

Lemma scaled_nonneg (prec : nat) (m : positive) (e : Z) : 0 ≤ scaled prec m e.
Proof.
  unfold scaled. destruct (0 <=? e) eqn:He.
  - apply Z.leb_le in He.
    assert (0 < 2 ^ e) by (by apply Z.pow_pos_nonneg).
    assert (0 < 10 ^ Z.of_nat prec) by (apply Z.pow_pos_nonneg; lia). nia.
  - apply Z.leb_gt in He. apply round_half_even_nonneg.
    + assert (0 < 10 ^ Z.of_nat prec) by (apply Z.pow_pos_nonneg; lia). nia.
    + apply Z.pow_pos_nonneg; lia.
Qed.

(** The three decimals are those of the nearest thousandth: for
    [|x| = m * 2 ^ e] the integer written is exact when [e >= 0], and
    otherwise within half a unit of [m * 1000 / 2 ^ (- e)]. *)
Lemma thousandths_nearest (s : bool) (m : positive) (e : Z) :
  if 0 <=? e
  then thousandths (S754_finite s m e) = Z.pos m * 2 ^ e * 1000
  else Z.abs (2 * (thousandths (S754_finite s m e) * 2 ^ (- e) - Z.pos m * 1000))
       ≤ 2 ^ (- e).
Proof.
  unfold thousandths, scaled. change (10 ^ Z.of_nat 3) with 1000.
  destruct (0 <=? e) eqn:He; [done|]. apply Z.leb_gt in He.
  apply round_half_even_nearest. apply Z.pow_pos_nonneg; lia.
Qed.

Lemma fixed_3_structure (k : Z) :
  0 ≤ k →
  ∃ digits frac,
    fixed 3 k = digits +:+ String "." frac ∧
    (1 ≤ String.length digits)%nat ∧ String.length frac = 3%nat ∧
    all_chars is_digit digits = true ∧ all_chars is_digit frac = true ∧
    decimal_value 0 (digits +:+ frac) = k.
Proof.
  intros Hk. change (10 ^ Z.of_nat 3) with 1000.
  assert (0 ≤ k / 1000) as Hq by (apply Z.div_pos; lia).
  destruct (str_of_Z_digits (k / 1000) Hq) as (Hdig & Hlen & Hval).
  exists (str_of_Z (k / 1000)), (last_digits 3 k "").
  split; [done|]. split; [done|]. split; [by rewrite length_last_digits|].
  split; [done|]. split; [by apply last_digits_all_digits|].
  rewrite decimal_value_append, Hval, last_digits_value.
  change (10 ^ Z.of_nat 3) with 1000.
  pose proof (Z.div_mod k 1000 ltac:(lia)). lia.
Qed.



Lemma length_fixed_point_finite (s : bool) (m : positive) (e : Z) :
  String.length (fixed_point (S754_finite s m e) 3)
  = ((if s then 1 else 0) + String.length (str_of_Z (scaled 3 m e / 1000)) + 4)%nat.
Proof.
  cbn [fixed_point]. unfold fixed. change (10 ^ Z.of_nat 3) with 1000.
  rewrite !length_append. cbn [String.length]. rewrite length_last_digits.
  destruct s; cbn; lia.
Qed.

(** The field of a coordinate holds exactly 7 characters if and only if the
    coordinate is NaN or infinite, or its rounded thousandths are below
    1000000 without the minus sign, below 100000 with it. *)
Lemma length_format_f_7_iff (x : float64) :
  String.length (format_f x 7 3) = 7%nat ↔
  (is_finite x = true →
   thousandths x < (if is_negative x then 100000 else 1000000)).
Proof.
  destruct x as [s|s| |s m e].
  - split; [intros _ _; by destruct s|intros _; by destruct s].
  - split; [done|intros _; by destruct s].
  - done.
  - unfold format_f. rewrite length_rjust, length_fixed_point_finite.
    cbn [is_finite is_negative thousandths].
    pose proof (scaled_nonneg 3 m e) as Hk.
    set (k := scaled 3 m e) in *. clearbody k.
    assert (0 ≤ k / 1000) as Hq by (apply Z.div_pos; lia).
    destruct s.
    + pose proof (str_of_Z_length_le_iff (k / 1000) 1 Hq) as Hiff.
      change (10 ^ Z.of_nat 2) with 100 in Hiff.
      assert (k / 1000 < 100 ↔ k < 100000) as Hdiv.
      { split; [|intros; apply Z.div_lt_upper_bound; lia].
        intros Hlt. destruct (decide (k < 100000)) as [|Hge]; [done|].
        assert (100 ≤ k / 1000) by (apply Z.div_le_lower_bound; lia). lia. }
      split; [intros Hlen _|intros Hlt; specialize (Hlt eq_refl)].
      * apply Hdiv, Hiff. lia.
      * apply Hdiv, Hiff in Hlt. lia.
    + pose proof (str_of_Z_length_le_iff (k / 1000) 2 Hq) as Hiff.
      change (10 ^ Z.of_nat 3) with 1000 in Hiff.
      assert (k / 1000 < 1000 ↔ k < 1000000) as Hdiv.
      { split; [|intros; apply Z.div_lt_upper_bound; lia].
        intros Hlt. destruct (decide (k < 1000000)) as [|Hge]; [done|].
        assert (1000 ≤ k / 1000) by (apply Z.div_le_lower_bound; lia). lia. }
      split; [intros Hlen _|intros Hlt; specialize (Hlt eq_refl)].
      * apply Hdiv, Hiff. lia.
      * apply Hdiv, Hiff in Hlt. lia.
Qed.

(** The two descriptions leave no choice: a field they describe is the one
    the format makes. *)
Lemma coordinate_field_unique (field : string) (x : float64) :
  coordinate_field field x → field = format_f x 7 3.
Proof.
  intros (k & -> & Hlen & _). unfold format_f, rjust.
  rewrite length_append, length_spaces in Hlen.
  replace k with (7 - String.length (fixed_point x 3))%nat by lia. done.
Qed.

Lemma digits_unique (s t : string) (a b : Z) :
  String.length s = String.length t →
  all_chars is_digit s = true → all_chars is_digit t = true →
  0 ≤ a → 0 ≤ b →
  decimal_value a s = decimal_value b t → a = b ∧ s = t.
Proof.
  revert t a b. induction s as [|c s IH]; intros [|d t] a b Hlen Hs Ht Ha Hb Hval;
    try done.
  cbn in Hlen, Hs, Ht. injection Hlen as Hlen.
  apply andb_prop in Hs as [Hc Hs]. apply andb_prop in Ht as [Hd Ht].
  pose proof (is_digit_value c Hc). pose proof (is_digit_value d Hd).
  cbn [decimal_value] in Hval.
  destruct (IH t (10 * a + (Z.of_nat (nat_of_ascii c) - 48))
              (10 * b + (Z.of_nat (nat_of_ascii d) - 48))
              Hlen Hs Ht ltac:(lia) ltac:(lia) Hval) as [Hcd ->].
  assert (nat_of_ascii c = nat_of_ascii d) as Hnat by lia.
  split; [lia|]. f_equal.
  by rewrite <- (ascii_nat_embedding c), <- (ascii_nat_embedding d), Hnat.
Qed.

Lemma number_field_unique (field : string) (n : Z) :
  0 ≤ n → number_field field n → field = format_d n 4.
Proof.
  intros Hn (k & digits & -> & Hdig & Hval & Hcanon & Hlen & _).
  destruct (str_of_Z_digits n Hn) as (Hdig' & Hlen' & Hval').
  assert (String.length digits = String.length (str_of_Z n)) as Hsame.
  { pose proof (decimal_value_lt digits 0 Hdig ltac:(done)) as [_ Hlt]. rewrite Hval in Hlt.
    pose proof (decimal_value_lt (str_of_Z n) 0 Hdig' ltac:(done)) as [_ Hlt'].
    rewrite Hval' in Hlt'.
    assert (∀ s, all_chars is_digit s = true → decimal_value 0 s = n →
              (s = "0" ∨ ∃ c rest, s = String c rest ∧ c ≠ "0"%char) →
              n = 0 ∧ s = "0" ∨ 10 ^ Z.of_nat (String.length s - 1) ≤ n) as Hlow.
    { intros s Hs Hv [->|(c & rest & -> & Hc)]; [left; by rewrite <- Hv|]. right.
      cbn in Hs. apply andb_prop in Hs as [Hcd Hs]. pose proof (is_digit_value c Hcd).
      assert (Z.of_nat (nat_of_ascii c) - 48 ≠ 0) as Hne.
      { intros H0. apply Hc. rewrite <- (ascii_nat_embedding c).
        replace (nat_of_ascii c) with 48%nat by lia. done. }
      cbn [decimal_value] in Hv. cbn [String.length].
      replace (S (String.length rest) - 1)%nat with (String.length rest) by lia.
      pose proof (decimal_value_lt rest (10 * 0 + (Z.of_nat (nat_of_ascii c) - 48)) Hs
                    ltac:(lia)) as [Hge _].
      rewrite Hv in Hge.
      assert (0 < 10 ^ Z.of_nat (String.length rest)) by (apply Z.pow_pos_nonneg; lia).
      nia. }
    assert (∀ k : nat, 0 < 10 ^ Z.of_nat k) as Hpow
      by (intros; apply Z.pow_pos_nonneg; lia).
    destruct (Hlow digits Hdig Hval Hcanon) as [[Hn0 Hd0]|Hge],
      (Hlow (str_of_Z n) Hdig' Hval' (str_of_Z_canonical n Hn)) as [[Hn0' Hs0]|Hge'].
    - by rewrite Hd0, Hs0.
    - pose proof (Hpow (String.length (str_of_Z n) - 1)%nat). lia.
    - pose proof (Hpow (String.length digits - 1)%nat). lia.
    - destruct (decide (String.length digits = String.length (str_of_Z n))) as [|Hne];
        [done|]. exfalso.
      destruct (decide (String.length digits < String.length (str_of_Z n))%nat).
      + assert (10 ^ Z.of_nat (String.length digits)
                ≤ 10 ^ Z.of_nat (String.length (str_of_Z n) - 1))
          by (apply Z.pow_le_mono_r; lia). lia.
      + assert (10 ^ Z.of_nat (String.length (str_of_Z n))
                ≤ 10 ^ Z.of_nat (String.length digits - 1))
          by (apply Z.pow_le_mono_r; lia). lia. }
  destruct (digits_unique digits (str_of_Z n) 0 0 Hsame Hdig Hdig' ltac:(done) ltac:(done))
    as [_ ->]; [congruence|].
  unfold format_d, rjust. rewrite length_append, length_spaces in Hlen.
  replace k with (4 - String.length (str_of_Z n))%nat by lia. done.
Qed.


(** ** The writer *)





Lemma open_write_fails (w : world) (path : string) (e : exn) :
  open_failure w path = Some e → open_write path w = (Raise e, w).
Proof. intros H. unfold open_write. by rewrite H. Qed.

Lemma open_write_opens (w : world) (path : string) :
  open_failure w path = None →
  open_write path w = (Return tt, set_files (<[path := ""]> (files w)) w).
Proof. intros H. unfold open_write. by rewrite H. Qed.

(** Where the open fails, [save_pdb] raises its exception and changes
    nothing. *)
Lemma save_pdb_open_fails (w : world) (output_path : string) (C : ndarray) (e : exn) :
  open_failure w output_path = Some e → save_pdb output_path C w = (Raise e, w).
Proof.
  intros H. unfold save_pdb. by erewrite bind_raise by (by apply open_write_fails).
Qed.



(** The end-to-end scenario: for the four atoms the writer emits exactly 4
    lines, each beginning with "ATOM" and ending with "C". *)
Example save_four_atoms :
  ∃ w',
    save_pdb output_pdb_path four_atoms_array world_four_atoms = (Return tt, w') ∧
    files w' !! output_pdb_path = Some (text_of_lines [
      line_of "ATOM     1  CA  ALA A   1       0.000   0.000   0.000  1.00  0.00           C";
      line_of "ATOM     2  CA  ALA A   1       1.000   1.000   1.000  1.00  0.00           C";
      line_of "ATOM     3  CA  ALA A   1       2.000   2.000   2.000  1.00  0.00           C";
      line_of "ATOM     4  CA  ALA A   1       3.000   3.000   3.000  1.00  0.00           C" ]).
Proof. eexists. split; vm_compute; reflexivity. Qed.

(** Where the directory of the output file is missing, and at the empty
    path, the writer raises what the open raises and leaves no file. *)
Example save_unwritable_raises :
  save_pdb output_pdb_path four_atoms_array world_no_output_directory
  = (Raise FileNotFoundError, world_no_output_directory) ∧
  save_pdb "" four_atoms_array world_four_atoms
  = (Raise FileNotFoundError, world_four_atoms).
Proof. split; vm_compute; reflexivity. Qed.

(** ** Conversions and formats on sample texts *)

(** What [float] makes of some texts; [None] is Python's [ValueError]. *)
Example float_of_str_samples :
  float_of_str <$> ["  12.345"; " -7.500 "; "1e3"; "1_000.5"; "0.1"; "-0"; " nan"; "-Infinity"; ".5"; "5."; ""; "        "; "?.???"; "1.2.3"; "12 345"; "0x1F"; "1e"; "--1"; "1__0"]
  = [Some (S754_finite false 6949617174986097 (-49));
     Some (S754_finite true 8444249301319680 (-50));
     Some (S754_finite false 8796093022208000 (-43));
     Some (S754_finite false 8800491068719104 (-43));
     Some (S754_finite false 7205759403792794 (-56));
     Some (S754_zero true);
     Some (S754_nan);
     Some (S754_infinity true);
     Some (S754_finite false 4503599627370496 (-53));
     Some (S754_finite false 5629499534213120 (-50));
     None;
     None;
     None;
     None;
     None;
     None;
     None;
     None;
     None].
Proof. vm_compute. reflexivity. Qed.

(** [format(x, '7.3f')] on some values: 0.0, -0.0, 1.0, 12.3456, -7.0005,
    0.0005, 0.00025, 999.9995, 1000.0, -100.0, nan, -inf. *)
Example format_f_samples :
  (fun x => format_f x 7 3) <$>
    [S754_zero false;
     S754_zero true;
     S754_finite false 4503599627370496 (-52);
     S754_finite false 6949954944958149 (-49);
     S754_finite true 7881862297851789 (-50);
     S754_finite false 4611686018427388 (-63);
     S754_finite false 4611686018427388 (-64);
     S754_finite false 8796088624161489 (-43);
     S754_finite false 8796093022208000 (-43);
     S754_finite true 7036874417766400 (-46);
     S754_nan;
     S754_infinity true]
  = ["  0.000"; " -0.000"; "  1.000"; " 12.346"; " -7.000"; "  0.001"; "  0.000"; "1000.000"; "1000.000"; "-100.000"; "    nan"; "   -inf"].
Proof. vm_compute. reflexivity. Qed.

Example format_d_samples :
  (fun n => format_d n 4) <$> [1; 42; 999; 9999; 10000; 123456] = ["   1"; "  42"; " 999"; "9999"; "10000"; "123456"].
Proof. vm_compute. reflexivity. Qed.

(** The coordinates of the wide atom are the floats of these texts. *)
Example wide_atom_values :
  mapM float_of_str ["-100.0"; "1000.0"; "0.5"] = Some (concat wide_atom).
Proof. vm_compute. reflexivity. Qed.

(** An atom record cut short after its x field: the y field is missing, and
    the parser raises. *)
Example parse_short_atom_raises :
  (parse_pdb input_pdb_path
     (World ∅ {[ input_pdb_path := line_of "ATOM      1  CA  ALA A   1       0.000" ]}
        some_rng ∅)).1
  = Raise ValueError.
Proof. vm_compute. reflexivity. Qed.

(** A path without a file. *)
Example parse_missing_file_raises :
  (parse_pdb input_pdb_path (World ∅ ∅ some_rng ∅)).1 = Raise FileNotFoundError.
Proof. vm_compute. reflexivity. Qed.

(** The test fraction is the float of the literal, and the sizes of the
    split of 12 rows are 9 and 3. *)
Example test_size_02_literal : float_of_str "0.2" = Some test_size_02.
Proof. vm_compute. reflexivity. Qed.

Example validate_shuffle_split_12 :
  validate_shuffle_split 12 test_size_02 = Return (9%nat, 3%nat).
Proof. vm_compute. reflexivity. Qed.

(** [main] on the two sample files: the four atoms give a stacked input and
    a tiled target of shape (12, 3); the file without atoms ends [main] with
    the axis error of the flip. *)
Example main_four_atoms :
  ∃ input_data output_data w',
    main world_four_atoms = (Return (input_data, output_data), w') ∧
    shape input_data = [12%nat; 3%nat] ∧ shape output_data = [12%nat; 3%nat] ∧
    tolist (heap w') output_data = Some (Rows (four_atoms ++ four_atoms ++ four_atoms)).
Proof. eexists _, _, _. split; [vm_compute; reflexivity|]. repeat split; vm_compute; reflexivity. Qed.

Example main_no_atoms_raises : (main world_no_atoms).1 = Raise AxisError.
Proof. vm_compute. reflexivity. Qed.

(** ** The statements at the sample inputs *)

Lemma four_atoms_coordinate_set :
  coordinate_set (heap world_four_atoms) four_atoms_array four_atoms.
Proof. split; vm_compute; reflexivity. Defined.

Lemma no_atoms_parse_empty_views_total_2d_witness :
  (∃ C w', parse_pdb input_pdb_path world_no_atoms = (Return C, w') ∧
     shape C = [0%nat] ∧ len C = 0%nat ∧ tolist (heap w') C = Some (Items [])) ∧
  (∃ view1 view2 view3 w2',
     generate_views empty_0x3 world_empty_0x3 = (Return (view1, view2, view3), w2') ∧
     len view1 = 0%nat ∧ len view2 = 0%nat ∧ len view3 = 0%nat ∧
     (0%nat = 0%nat →
      tolist (heap w2') view1 = Some (Rows []) ∧
      tolist (heap w2') view2 = Some (Rows []) ∧
      tolist (heap w2') view3 = Some (Rows []))).
Proof.
  apply (no_atoms_parse_empty_views_total_2d world_no_atoms input_pdb_path no_atoms_text
           world_empty_0x3 empty_0x3 0 3 []).
  - vm_compute; reflexivity.
  - vm_compute; reflexivity.
  - reflexivity.
  - vm_compute; reflexivity.
Defined.

Lemma parse_pdb_rows_witness :
  ∃ C w' rows,
    parse_pdb input_pdb_path world_four_atoms = (Return C, w') ∧
    len C = length (filter (fun l => atom_record l) (readlines four_atoms_text)) ∧
    tolist (heap w') C = Some (match rows with [] => Items [] | _ => Rows rows end) ∧
    Forall2 (fun line row =>
               ∃ x y z, row = [x; y; z] ∧
                 float_of_str (columns line 31 38) = Some x ∧
                 float_of_str (columns line 39 46) = Some y ∧
                 float_of_str (columns line 47 54) = Some z)
            (filter (fun l => atom_record l) (readlines four_atoms_text)) rows.
Proof.
  apply (parse_pdb_rows world_four_atoms input_pdb_path four_atoms_text).
  - vm_compute; reflexivity.
  - apply (proj1 (Forall_forall
                    (fun line => atom_record line → is_Some (coordinates_of line)) _)).
    eapply bool_decide_unpack. vm_compute. exact I.
Defined.

(** The end-to-end scenario: the four-atom file parses to exactly the four
    rows, in order. *)
Example parse_four_atoms :
  ∃ C w', parse_pdb input_pdb_path world_four_atoms = (Return C, w') ∧
    shape C = [4%nat; 3%nat] ∧ tolist (heap w') C = Some (Rows four_atoms).
Proof.
  eexists _, _. split; [vm_compute; reflexivity|]. split; vm_compute; reflexivity.
Qed.

Lemma view3_reverses_each_row_witness :
  ∃ view1 view2 view3 w',
    generate_views four_atoms_array world_four_atoms = (Return (view1, view2, view3), w') ∧
    tolist (heap w') view3 = Some (Rows four_atoms).
Proof.
  destruct (view3_reverses_each_row world_four_atoms four_atoms_array four_atoms
              four_atoms_coordinate_set)
    as (v1 & v2 & v3 & w' & rows3 & Hrun & Hread & Hlen & Hrows).
  exists v1, v2, v3, w'. split; [exact Hrun|]. rewrite Hread. do 2 f_equal.
  apply list_eq. intros i. destruct (decide (i < 4)%nat) as [Hi|Hi].
  - destruct (Hrows i Hi) as (x & y & z & Hrow & ->).
    destruct i as [|[|[|[|i]]]]; [..|simpl in Hi; lia];
      vm_compute in Hrow; injection Hrow as <- <- <-; reflexivity.
  - rewrite !lookup_ge_None_2; [done|simpl; lia|rewrite Hlen; simpl; lia].
Defined.

Lemma flip_involutive_witness :
  ∃ F FF,
    np_flip four_atoms_array 1 world_four_atoms = (Return F, world_four_atoms) ∧
    np_flip F 1 world_four_atoms = (Return FF, world_four_atoms) ∧
    tolist (heap world_four_atoms) F = Some (Rows (reverse <$> four_atoms)) ∧
    FF = four_atoms_array ∧
    tolist (heap world_four_atoms) FF = Some (Rows four_atoms).
Proof.
  apply (flip_involutive world_four_atoms four_atoms_array four_atoms).
  - exact four_atoms_coordinate_set.
  - discriminate.
Defined.

Lemma view2_is_row_permutation_witness :
  ∃ view1 view2 view3 w' rows2,
    generate_views four_atoms_array (set_np_random some_rng world_four_atoms)
    = (Return (view1, view2, view3), w') ∧
    tolist (heap w') view2 = Some (Rows rows2) ∧
    rows2 ≡ₚ four_atoms.
Proof.
  destruct (view2_is_row_permutation world_four_atoms some_rng four_atoms_array four_atoms
              four_atoms_coordinate_set)
    as (v1 & v2 & v3 & w' & rows2 & Hrun & Hread & Hperm & _).
  by exists v1, v2, v3, w', rows2.
Defined.

Lemma training_data_shapes_witness :
  ∃ input_data output_data w',
    training_data four_atoms_array world_four_atoms = (Return (input_data, output_data), w') ∧
    shape input_data = [12%nat; 3%nat] ∧
    shape output_data = [12%nat; 3%nat] ∧
    tolist (heap w') output_data = Some (Rows (four_atoms ++ four_atoms ++ four_atoms)).
Proof.
  destruct (training_data_shapes world_four_atoms four_atoms_array four_atoms
              four_atoms_coordinate_set)
    as (inp & out & w' & rows_in & rows2 & Hrun & Hsi & _ & _ & _ & _ & Hso & Hro & _).
  by exists inp, out, w'.
Defined.

Lemma parse_pdb_raises_iff_witness :
  (parse_pdb input_pdb_path world_bad_atom).1 = Raise ValueError ∧
  main world_bad_atom = (Raise ValueError, world_bad_atom).
Proof.
  destruct (parse_pdb_raises_iff world_bad_atom input_pdb_path bad_atom_text)
    as (Hiff & _ & Hmain).
  - vm_compute; reflexivity.
  - assert ((parse_pdb input_pdb_path world_bad_atom).1 = Raise ValueError) as Hraise.
    { apply Hiff. exists bad_atom_text. split; [vm_compute; left|].
      split; [vm_compute; exact I|]. right. left. vm_compute. reflexivity. }
    split; [exact Hraise|]. apply Hmain.
    destruct (parse_pdb input_pdb_path world_bad_atom) as [o w'] eqn:Hrun.
    simpl in Hraise. subst o. f_equal.
    vm_compute in Hrun. by injection Hrun as <-.
Defined.

Lemma generate_views_preserves_input_witness :
  tolist (heap (generate_views four_atoms_array world_four_atoms).2) four_atoms_array
  = Some (Rows four_atoms).
Proof.
  destruct (generate_views_preserves_input four_atoms_array world_four_atoms) as (_ & -> & _).
  vm_compute. reflexivity.
Defined.


Lemma split_is_reproducible_witness :
  read_split (train_model some_RandomState four_atoms_array four_atoms_array world_four_atoms)
  = read_split (train_model some_RandomState four_atoms_array four_atoms_array
                  (generate_views four_atoms_array
                     (set_np_random other_rng world_four_atoms)).2).
Proof.
  destruct (split_is_reproducible some_RandomState world_four_atoms
              (generate_views four_atoms_array (set_np_random other_rng world_four_atoms)).2
              four_atoms_array four_atoms_array four_atoms_array four_atoms_array
              four_atoms four_atoms) as [H _];
    [vm_compute; reflexivity..|exact H].
Defined.

(** Without the seed the split would follow the global random source: the
    same data in two states of that source give different test parts. *)
Example unseeded_split_follows_global_source :
  read_split (train_test_split some_RandomState four_atoms_array four_atoms_array
                test_size_02 None world_four_atoms)
  ≠ read_split (train_test_split some_RandomState four_atoms_array four_atoms_array
                  test_size_02 None (set_np_random other_rng world_four_atoms)).
Proof. vm_compute. discriminate. Qed.

(** * Further properties *)

(** ** Reversal, stripping and slicing of text *)

Lemma rev_app_append (s acc : string) : String.rev_app s acc = String.rev s +:+ acc.
Proof.
  unfold String.rev. revert acc. induction s as [|c s IH]; intros acc; [done|].
  cbn. rewrite (IH (String c acc)), (IH (String c "")), append_assoc. done.
Qed.

Lemma rev_cons (c : ascii) (s : string) :
  String.rev (String c s) = String.rev s +:+ String c "".
Proof. unfold String.rev at 1. cbn. apply rev_app_append. Qed.

Lemma rev_append (a b : string) : String.rev (a +:+ b) = String.rev b +:+ String.rev a.
Proof.
  induction a as [|c a IH]; [by rewrite append_nil_r|].
  change (String c a +:+ b) with (String c (a +:+ b)).
  by rewrite !rev_cons, IH, append_assoc.
Qed.

Lemma rev_involutive (s : string) : String.rev (String.rev s) = s.
Proof.
  induction s as [|c s IH]; [done|]. by rewrite rev_cons, rev_append, IH.
Qed.

Lemma all_chars_rev (P : ascii → bool) (s : string) :
  all_chars P (String.rev s) = all_chars P s.
Proof.
  induction s as [|c s IH]; [done|].
  rewrite rev_cons, all_chars_append, IH. cbn. by rewrite andb_true_r, andb_comm.
Qed.

Lemma spaces_snoc (k : nat) : spaces k +:+ " " = spaces (S k).
Proof. induction k as [|k IH]; [done|]. cbn. by rewrite IH. Qed.

Lemma rev_spaces (k : nat) : String.rev (spaces k) = spaces k.
Proof.
  induction k as [|k IH]; [done|]. cbn [spaces]. by rewrite rev_cons, IH, spaces_snoc.
Qed.

Lemma lstrip_spaces (k : nat) (s : string) : lstrip (spaces k +:+ s) = lstrip s.
Proof. induction k as [|k IH]; [done|]. cbn. exact IH. Qed.

(** Stripping the left of a text that holds more than blanks keeps what
    follows it. *)
Lemma lstrip_append (s t : string) :
  lstrip s ≠ "" → lstrip (s +:+ t) = lstrip s +:+ t.
Proof.
  induction s as [|c s IH]; [done|]. cbn. destruct (is_space c); [exact IH|done].
Qed.

Lemma lstrip_blank_append (s t : string) :
  lstrip s = "" → lstrip (s +:+ t) = lstrip t.
Proof.
  induction s as [|c s IH]; [done|]. cbn. destruct (is_space c); [exact IH|done].
Qed.

Lemma lstrip_idem (s : string) : lstrip (lstrip s) = lstrip s.
Proof.
  induction s as [|c s IH]; [done|]. cbn. destruct (is_space c) eqn:Hc; [done|].
  cbn. by rewrite Hc.
Qed.

Lemma rev_eq_nil (s : string) : String.rev s = "" → s = "".
Proof. intros H. by rewrite <- (rev_involutive s), H. Qed.

Lemma lstrip_no_space (s : string) : all_chars not_space s = true → lstrip s = s.
Proof.
  destruct s as [|c s]; [done|]. cbn. unfold not_space at 1.
  intros [Hc _]%andb_prop. apply negb_true_iff in Hc. by rewrite Hc.
Qed.

Lemma strip_no_space (s : string) : all_chars not_space s = true → strip s = s.
Proof.
  intros Hs. unfold strip. rewrite (lstrip_no_space s Hs).
  rewrite lstrip_no_space by (by rewrite all_chars_rev). apply rev_involutive.
Qed.

(** Blanks before and after a text do not change what is left of it once
    stripped. *)
Lemma strip_spaces (k j : nat) (s : string) :
  strip (spaces k +:+ s +:+ spaces j) = strip s.
Proof.
  unfold strip. rewrite lstrip_spaces.
  destruct (decide (lstrip s = "")) as [Hblank|Hmore].
  - rewrite lstrip_blank_append, Hblank by done.
    rewrite <- (append_nil_r (spaces j)), lstrip_spaces. done.
  - rewrite lstrip_append by done.
    by rewrite rev_append, rev_spaces, lstrip_spaces.
Qed.

Lemma float_of_str_strip (s t : string) : strip s = strip t → float_of_str s = float_of_str t.
Proof. unfold float_of_str. by intros ->. Qed.

(** ** Reading digits *)

Lemma digit_val_digit (c : ascii) :
  is_digit c = true → digit_val c = Some (Z.of_nat (nat_of_ascii c) - 48).
Proof.
  unfold is_digit, digit_val. intros [H1 H2]%andb_prop.
  apply Nat.leb_le in H1, H2.
  rewrite (proj2 (Z.leb_le _ _)), (proj2 (Z.leb_le _ _)) by lia. done.
Qed.

Lemma digits_tail_digits (ds rest : string) :
  all_chars is_digit ds = true →
  digits_tail rest = ([], rest) →
  digits_tail (ds +:+ rest) = (digit_vals ds, rest).
Proof.
  intros Hds Hrest. induction ds as [|d ds IH]; [done|].
  cbn in Hds. apply andb_prop in Hds as [Hd Hds].
  change (String d ds +:+ rest) with (String d (ds +:+ rest)).
  cbn [digits_tail digit_vals]. by rewrite (digit_val_digit d Hd), (IH Hds).
Qed.

Lemma digitpart_digits (d : ascii) (ds rest : string) :
  all_chars is_digit (String d ds) = true →
  digits_tail rest = ([], rest) →
  digitpart (String d ds +:+ rest) = Some (digit_vals (String d ds), rest).
Proof.
  intros Hds Hrest. cbn in Hds. apply andb_prop in Hds as [Hd Hds].
  change (String d ds +:+ rest) with (String d (ds +:+ rest)).
  cbn [digitpart digit_vals].
  by rewrite (digit_val_digit d Hd), (digits_tail_digits ds rest Hds Hrest).
Qed.

Lemma digit_vals_append (a b : string) :
  digit_vals (a +:+ b) = digit_vals a ++ digit_vals b.
Proof. induction a as [|c a IH]; [done|]. cbn. by rewrite IH. Qed.

Lemma digits_value_vals (s : string) : digits_value (digit_vals s) = decimal_value 0 s.
Proof.
  unfold digits_value. generalize 0. induction s as [|c s IH]; intros acc; [done|].
  cbn. apply IH.
Qed.

Lemma length_digit_vals (s : string) : length (digit_vals s) = String.length s.
Proof. induction s as [|c s IH]; [done|]. cbn. by rewrite IH. Qed.

(** A text that begins with a digit is none of the words [float] knows. *)
Lemma digit_first_not_word (d : ascii) (s : string) :
  is_digit d = true →
  String.eqb (lower_str (String d s)) "inf" || String.eqb (lower_str (String d s)) "infinity"
  = false ∧
  String.eqb (lower_str (String d s)) "nan" = false.
Proof.
  intros Hd. destruct d as [[] [] [] [] [] [] [] []]; vm_compute in Hd; try discriminate Hd;
    done.
Qed.

Lemma float_of_str_digit_first (d : ascii) (s : string) :
  is_digit d = true → strip (String d s) = String d s →
  float_of_str (String d s) = absfloatvalue false (String d s).
Proof.
  intros Hd Hstrip. unfold float_of_str. rewrite Hstrip.
  destruct d as [[] [] [] [] [] [] [] []]; vm_compute in Hd; try discriminate Hd; done.
Qed.

(** A fixed-point text (digits, a point, digits) is read as the integer of
    all its digits, scaled down by the count of digits after the point. *)
Lemma absfloatvalue_fixed (neg : bool) (d f : ascii) (ds fr : string) :
  all_chars is_digit (String d ds) = true →
  all_chars is_digit (String f fr) = true →
  absfloatvalue neg (String d ds +:+ String "." (String f fr))
  = Some (decimal_to_float neg (decimal_value 0 (String d ds +:+ String f fr))
            (- Z.of_nat (String.length (String f fr)))).
Proof.
  intros Hds Hfr. unfold absfloatvalue.
  assert (is_digit d = true) as Hd by (cbn in Hds; by apply andb_prop in Hds as [? _]).
  change (String d ds +:+ String "." (String f fr))
    with (String d (ds +:+ String "." (String f fr))) at 1 2 3.
  destruct (digit_first_not_word d (ds +:+ String "." (String f fr)) Hd) as [-> ->].
  unfold number.
  rewrite (digitpart_digits d ds (String "." (String f fr)) Hds) by done.
  pose proof (digitpart_digits f fr "" Hfr eq_refl) as Hfp.
  rewrite append_nil_r in Hfp. rewrite Hfp. cbn [exponent].
  rewrite <- digit_vals_append, digits_value_vals, length_digit_vals.
  by rewrite Z.add_0_l.
Qed.

(** ** A written field, read back *)

Lemma fixed_point_chars (P : ascii → bool) (x : float64) (prec : nat) :
  (∀ c, is_digit c = true → P c = true) →
  all_chars P "-.nanif" = true →
  all_chars P (fixed_point x prec) = true.
Proof.
  intros Hdig Hlit.
  assert (all_chars P (fixed prec 0) = true ∧ ∀ k, all_chars P (fixed prec k) = true)
    as [Hzero Hfixed].
  { assert (∀ k, all_chars P (fixed prec k) = true) as H; [|by split].
    intros k. unfold fixed. rewrite all_chars_append.
    rewrite (all_chars_impl is_digit P _ Hdig) by (by apply dec_digits_all_digits).
    destruct prec as [|prec]; [done|].
    change (all_chars P (String "." ?s)) with (P "."%char && all_chars P s).
    rewrite (all_chars_impl is_digit P _ Hdig) by (by apply last_digits_all_digits).
    cbn in Hlit. by destruct (P "-"%char), (P "."%char). }
  cbn in Hlit.
  destruct (P "-"%char) eqn:H1, (P "."%char) eqn:H2, (P "n"%char) eqn:H3,
    (P "a"%char) eqn:H4, (P "i"%char) eqn:H5, (P "f"%char) eqn:H6; try done.
  destruct x as [s|s| |s m e]; cbn [fixed_point].
  - rewrite all_chars_append, Hzero. destruct s; cbn; by rewrite ?H1.
  - destruct s; cbn; by rewrite ?H1, H5, H3, H6.
  - cbn. by rewrite H3, H4.
  - rewrite all_chars_append, Hfixed. destruct s; cbn; by rewrite ?H1.
Qed.

Lemma is_digit_not_space (c : ascii) : is_digit c = true → not_space c = true.
Proof.
  intros Hd. destruct c as [[] [] [] [] [] [] [] []]; vm_compute in Hd; try discriminate Hd;
    done.
Qed.

Lemma fixed_point_no_space (x : float64) (prec : nat) :
  all_chars not_space (fixed_point x prec) = true.
Proof. apply fixed_point_chars; [apply is_digit_not_space|done]. Qed.

Lemma float_of_str_minus (r : string) :
  strip (String "-" r) = String "-" r → float_of_str (String "-" r) = absfloatvalue true r.
Proof. intros H. unfold float_of_str. by rewrite H. Qed.

(** The fixed-point text of any float is numeric text, and reads as the
    float [reread] gives. *)
Lemma float_of_str_fixed_point (x : float64) :
  float_of_str (fixed_point x 3) = Some (reread x).
Proof.
  destruct x as [s|s| |s m e]; [by destruct s|by destruct s|done|].
  pose proof (fixed_point_no_space (S754_finite s m e) 3) as Hns.
  apply strip_no_space in Hns. cbn [fixed_point] in *.
  destruct (fixed_3_structure (scaled 3 m e) (scaled_nonneg 3 m e))
    as (digits & frac & Hfix & Hlen & Hfrac & Hdig & Hfdig & Hval).
  rewrite Hfix in *.
  destruct digits as [|d ds]; [cbn in Hlen; lia|].
  destruct frac as [|f fr]; [done|].
  cbn [reread is_negative thousandths]. rewrite <- Hval.
  change (-3) with (- Z.of_nat 3). rewrite <- Hfrac.
  destruct s; cbn [sign_str] in *.
  - change ("-" +:+ ?t) with (String "-" t) in *.
    rewrite float_of_str_minus by done. by apply absfloatvalue_fixed.
  - change ("" +:+ ?t) with t in *.
    change (String d ds +:+ ?t) with (String d (ds +:+ t)) in Hns |- * at 1.
    rewrite float_of_str_digit_first; [|by apply andb_prop in Hdig as [? _]|done].
    by apply absfloatvalue_fixed.
Qed.

Lemma float_of_str_field (k j : nat) (x : float64) :
  float_of_str (spaces k +:+ fixed_point x 3 +:+ spaces j) = Some (reread x).
Proof.
  rewrite <- float_of_str_fixed_point. apply float_of_str_strip, strip_spaces.
Qed.

(** ** Slices of a record line *)

Lemma substring_skip (a b : string) (n m : nat) :
  String.substring (String.length a + n) m (a +:+ b) = String.substring n m b.
Proof. induction a as [|c a IH]; [done|]. cbn. apply IH. Qed.

Lemma substring_take (a b : string) (m : nat) :
  String.substring 0 (String.length a + m) (a +:+ b) = a +:+ String.substring 0 m b.
Proof. induction a as [|c a IH]; [done|]. cbn. by rewrite IH. Qed.

Lemma substring_field (P f r : string) (c : ascii) (n m : nat) :
  String.length P = n → (String.length f + 1)%nat = m →
  String.substring n m (P +:+ f +:+ String c r) = f +:+ String c "".
Proof.
  intros <- <-. rewrite <- (Nat.add_0_r (String.length P)), substring_skip, substring_take.
  by destruct r.
Qed.


Lemma length_format_f_narrow (x : float64) :
  narrow x = true → String.length (format_f x 7 3) = 7%nat.
Proof. unfold narrow, format_f. intros H%Nat.leb_le. rewrite length_rjust. lia. Qed.



(** The atom number field holds 4 characters up to 9999, and 5 from 10000
    to 99999. *)
Lemma length_format_d (n : Z) :
  0 ≤ n < 100000 →
  String.length (format_d n 4) = if n <? 10000 then 4%nat else 5%nat.
Proof.
  intros Hn. destruct (n <? 10000) eqn:Hlt.
  - apply Z.ltb_lt in Hlt. destruct (format_d_number_field n) as (? & ? & _ & _ & _ & _ & _ & _ & H);
      [lia|]. by apply H.
  - apply Z.ltb_ge in Hlt. unfold format_d. rewrite length_rjust.
    rewrite (str_of_Z_length n 4); [done|]. change (10 ^ Z.of_nat 4) with 10000.
    change (10 ^ Z.of_nat 5) with 100000. lia.
Qed.




(** ** The writer, on any rows *)

(** The loop writes the lines of the rows before the first one with fewer
    than three entries, and raises there. *)
Lemma write_atoms_run_any (path content : string) (i : nat) (rows : list (list float64))
    (w : world) :
  files w !! path = Some content →
  write_atoms path i rows w
  = (if decide (Forall (fun r => (3 ≤ length r)%nat) rows)
     then Return tt else Raise IndexError,
     set_files (<[path := content +:+ text_of_lines (atom_lines i rows)]> (files w)) w).
Proof.
  revert i content w. induction rows as [|r rows IH]; intros i content w Hfile.
  - cbn. rewrite append_nil_r, insert_id by done. by destruct w.
  - assert (content +:+ text_of_lines [] = content) as Hnil by apply append_nil_r.
    destruct r as [|x [|y [|z r]]].
    1-3: cbn [write_atoms atom_lines]; rewrite Hnil, insert_id by done;
      rewrite decide_False by (intros [H _]%Forall_cons; cbn in H; lia); by destruct w.
    cbn [write_atoms atom_lines]. erewrite bind_return by reflexivity.
    rewrite (IH (S i) (content +:+ atom_line i x y z)).
    + unfold set_files. cbn. rewrite Hfile. cbn.
      rewrite insert_insert_eq, append_assoc. f_equal.
      destruct (decide (Forall _ rows)) as [Hrows|Hrows].
      * rewrite decide_True; [done|]. constructor; [cbn; lia|done].
      * rewrite decide_False; [done|]. by intros [_ H]%Forall_cons.
    + cbn. rewrite Hfile. cbn. by rewrite lookup_insert_eq.
Qed.

(** [save_pdb] on an array of two axes. *)
Lemma save_pdb_run_rows (w : world) (output_path : string) (C : ndarray)
    (rows : list (list float64)) :
  open_failure w output_path = None →
  tolist (heap w) C = Some (Rows rows) →
  save_pdb output_path C w
  = (if decide (Forall (fun r => (3 ≤ length r)%nat) rows)
     then Return tt else Raise IndexError,
     set_files (<[output_path := text_of_lines (atom_lines 0 rows)]> (files w)) w).
Proof.
  intros Hopen Hread. unfold save_pdb.
  erewrite bind_return by (by apply open_write_opens).
  erewrite bind_return by reflexivity.
  erewrite bind_return by (cbn; rewrite Hread; reflexivity). cbn beta iota.
  rewrite (write_atoms_run_any output_path "" 0 rows) by apply lookup_insert_eq.
  unfold set_files. cbn. by rewrite insert_insert_eq.
Qed.

(** [save_pdb] on an array of one axis. *)
Lemma save_pdb_run_items (w : world) (output_path : string) (C : ndarray)
    (xs : list float64) :
  open_failure w output_path = None →
  tolist (heap w) C = Some (Items xs) →
  save_pdb output_path C w
  = (match xs with [] => Return tt | _ => Raise IndexError end,
     set_files (<[output_path := ""]> (files w)) w).
Proof.
  intros Hopen Hread. unfold save_pdb.
  erewrite bind_return by (by apply open_write_opens).
  erewrite bind_return by reflexivity.
  erewrite bind_return by (cbn; rewrite Hread; reflexivity). cbn beta iota.
  by destruct xs.
Qed.

(** ** Writing, then reading *)

(** X1.  Every coordinate field [save_pdb] writes is text that the [float]
    of [parse_pdb] accepts, whatever the float written: NaN and the
    infinities are read back as they are, a finite number as the float
    nearest to its value rounded to 3 decimals, with its sign (so a negative
    number that rounds to zero is read back as the negative zero). *)
Theorem written_field_reads_back (x : float64) :
  float_of_str (format_f x 7 3) = Some (reread x).
Proof.
  unfold format_f, rjust. rewrite <- (append_nil_r (fixed_point x 3)).
  apply (float_of_str_field _ 0).
Qed.



(** ** The width of a coordinate field *)

(** X3.  A coordinate field written by [save_pdb] holds exactly 7 characters
    (its minimum) if and only if the coordinate is NaN or infinite, or its
    magnitude rounded to thousandths is below 1000 for a number without the
    minus sign, below 100 for one with it; every other coordinate makes a
    wider field. *)
Theorem coordinate_field_width (x : float64) :
  (7 ≤ String.length (format_f x 7 3))%nat ∧
  (String.length (format_f x 7 3) = 7%nat ↔
   (is_finite x = true →
    thousandths x < (if is_negative x then 100000 else 1000000))).
Proof.
  split; [unfold format_f; rewrite length_rjust; lia|]. apply length_format_f_7_iff.
Qed.

(** ** What the parser reads, and what it leaves *)

Lemma substring_nil (n m : nat) : String.substring n m "" = "".
Proof. by destruct n, m. Qed.

Lemma substring_substring (s : string) (n m a b : nat) :
  (a + b ≤ m)%nat →
  String.substring a b (String.substring n m s) = String.substring (n + a) b s.
Proof.
  revert n m a b. induction s as [|c s IH]; intros n m a b Hab.
  - by rewrite !substring_nil.
  - destruct n as [|n]; [|apply (IH n m a b Hab)].
    destruct m as [|m].
    + assert (a = 0%nat) as -> by lia. assert (b = 0%nat) as -> by lia. done.
    + destruct a as [|a]; [|apply (IH 0%nat m a b); lia].
      destruct b as [|b]; [done|]. cbn. f_equal. apply (IH 0%nat m 0%nat b). lia.
Qed.

(** The row of a line is a function of its columns 31 to 54. *)
Lemma coordinates_of_columns (l1 l2 : string) :
  columns l1 31 54 = columns l2 31 54 → coordinates_of l1 = coordinates_of l2.
Proof.
  intros Heq. unfold coordinates_of.
  assert (∀ l, columns l 31 38 = columns (columns l 31 54) 1 8 ∧
               columns l 39 46 = columns (columns l 31 54) 9 16 ∧
               columns l 47 54 = columns (columns l 31 54) 17 24) as Hcols.
  { intros l. unfold columns. cbn [Nat.sub Nat.add].
    rewrite !substring_substring by lia. done. }
  destruct (Hcols l1) as (-> & -> & ->). destruct (Hcols l2) as (-> & -> & ->).
  by rewrite Heq.
Qed.

Lemma mapM_coordinates_of_columns (L1 L2 : list string) :
  (fun l => columns l 31 54) <$> L1 = (fun l => columns l 31 54) <$> L2 →
  mapM coordinates_of L1 = mapM coordinates_of L2.
Proof.
  revert L2. induction L1 as [|l1 L1 IH]; intros [|l2 L2] Heq; try done.
  injection Heq as Hl HL. cbn [mapM].
  by rewrite (coordinates_of_columns l1 l2 Hl), (IH L2 HL).
Qed.

(** What [parse_pdb] gives to read is a function of the atom records. *)
Lemma parse_pdb_read (w : world) (file_path text : string) :
  files w !! file_path = Some text →
  read_array (parse_pdb file_path w)
  = match mapM coordinates_of (filter (fun l => atom_record l) (readlines text)) with
    | Some [] => Return (Some (Items []))
    | Some rows => Return (Some (Rows rows))
    | None => Raise ValueError
    end.
Proof.
  intros Hfile. pose proof (parse_pdb_run w file_path text Hfile) as Hrun.
  destruct (mapM _ _) as [rows|]; [|by rewrite Hrun].
  destruct Hrun as (C & w' & -> & _ & _ & _ & Hread). cbn.
  destruct rows; by destruct Hread as [_ ->].
Qed.

Lemma lstrip_all_space (s : string) : all_chars is_space s = true → lstrip s = "".
Proof.
  induction s as [|c s IH]; [done|]. cbn. intros [Hc Hs]%andb_prop. rewrite Hc. by apply IH.
Qed.

Lemma float_of_str_blank (s : string) : all_chars is_space s = true → float_of_str s = None.
Proof.
  intros Hs. unfold float_of_str, strip. by rewrite (lstrip_all_space s Hs).
Qed.

(** The world [parse_pdb] leaves: the store extended by the array returned,
    nothing else; unchanged when it raises, which it does with
    [FileNotFoundError] for a missing file and [ValueError] otherwise. *)
Lemma parse_pdb_world (w : world) (file_path : string) :
  ∃ h', (parse_pdb file_path w).2 = set_heap h' w ∧ heap w ⊆ h' ∧
    ∀ e, (parse_pdb file_path w).1 = Raise e →
      h' = heap w ∧
      (e = FileNotFoundError ∧ files w !! file_path = None ∨
       e = ValueError ∧ is_Some (files w !! file_path)).
Proof.
  unfold parse_pdb. rewrite bind_run. unfold open_read.
  destruct (files w !! file_path) as [text|] eqn:Hfile.
  2: { exists (heap w). split; [by destruct w|]. split; [done|].
       intros e [= <-]. split; [done|]. by left. }
  rewrite bind_run, parse_lines_run.
  destruct (mapM _ _) as [rows|].
  2: { exists (heap w). split; [by destruct w|]. split; [done|].
       intros e [= <-]. split; [done|]. right. by eauto. }
  cbn [app]. destruct rows as [|r rows].
  - destruct (new_1d_run [] w) as (l & Hnew & Hfresh & _).
    rewrite np_array_nil, Hnew. eexists. split; [done|].
    split; [by apply insert_subseteq|]. done.
  - unfold np_array. destruct (forallb _ _).
    + destruct (alloc_run (concat (r :: rows)) w) as (l & Halloc & Hfresh).
      unfold new_2d. erewrite bind_return by exact Halloc.
      eexists. split; [done|]. split; [by apply insert_subseteq|]. done.
    + exists (heap w). split; [by destruct w|]. split; [done|].
      intros e [= <-]. split; [done|]. right. by eauto.
Qed.

(** X4.  [parse_pdb] reads nothing of a file but columns 31 to 54 of the
    lines that begin with the marker: two files whose atom records agree on
    these columns, record by record, give the same rows or the same error,
    whatever else the files hold (other records, atom numbers, names,
    occupancies, trailing columns) and whatever the states they are read
    in. *)
Theorem parse_pdb_reads_coordinate_columns_only (w1 w2 : world) (path1 path2 : string)
    (text1 text2 : string) :
  files w1 !! path1 = Some text1 →
  files w2 !! path2 = Some text2 →
  (fun l => columns l 31 54) <$> filter (fun l => atom_record l) (readlines text1)
  = (fun l => columns l 31 54) <$> filter (fun l => atom_record l) (readlines text2) →
  read_array (parse_pdb path1 w1) = read_array (parse_pdb path2 w2).
Proof.
  intros H1 H2 Hcols.
  rewrite (parse_pdb_read w1 path1 text1 H1), (parse_pdb_read w2 path2 text2 H2).
  by rewrite (mapM_coordinates_of_columns _ _ Hcols).
Qed.

Lemma parse_pdb_reads_coordinate_columns_only_witness :
  read_array (parse_pdb input_pdb_path world_four_atoms)
  = read_array (parse_pdb input_pdb_path world_relabelled).
Proof.
  apply (parse_pdb_reads_coordinate_columns_only world_four_atoms world_relabelled
           input_pdb_path input_pdb_path four_atoms_text four_atoms_relabelled_text).
  - vm_compute; reflexivity.
  - vm_compute; reflexivity.
  - vm_compute; reflexivity.
Defined.

(** X5.  An atom record with a blank coordinate field (nothing but white
    space in columns 31-38, 39-46 or 47-54, as when the line ends before the
    field) makes [parse_pdb] raise [ValueError], wherever the record stands
    in the file and whatever the other lines hold; the state is left as it
    was. *)
Theorem blank_field_raises (w : world) (file_path text line : string) :
  files w !! file_path = Some text →
  line ∈ readlines text → atom_record line →
  all_chars is_space (columns line 31 38) = true ∨
  all_chars is_space (columns line 39 46) = true ∨
  all_chars is_space (columns line 47 54) = true →
  parse_pdb file_path w = (Raise ValueError, w).
Proof.
  intros Hfile Hin Hatom Hblank.
  assert (coordinates_of line = None) as Hnone.
  { apply coordinates_of_None.
    destruct Hblank as [H|[H|H]]; apply float_of_str_blank in H; by eauto. }
  pose proof (parse_pdb_run w file_path text Hfile) as Hrun.
  destruct (mapM _ _) as [rows|] eqn:Hrows; [|done].
  apply mapM_Some in Hrows.
  assert (line ∈ filter (fun l => atom_record l) (readlines text)) as Hin'
    by (by apply list_elem_of_filter).
  apply list_elem_of_lookup in Hin' as [i Hi].
  destruct (Forall2_lookup_l _ _ _ _ _ Hrows Hi) as (row & _ & Hrow). congruence.
Qed.

Lemma blank_field_raises_witness :
  parse_pdb input_pdb_path world_truncated = (Raise ValueError, world_truncated).
Proof.
  apply (blank_field_raises world_truncated input_pdb_path truncated_atom_text
           truncated_atom_text).
  - vm_compute; reflexivity.
  - eapply bool_decide_unpack. vm_compute. exact I.
  - vm_compute. exact I.
  - right. right. vm_compute. reflexivity.
Defined.

(** X6.  [parse_pdb] changes nothing but the store of arrays, which it only
    extends (by the array it returns): it writes no file, draws nothing from
    the random source and leaves every array there is as it was.  When it
    raises it has changed nothing at all; the exception is
    [FileNotFoundError] exactly when there is no file at the path, and
    [ValueError] otherwise. *)
Theorem parse_pdb_frame (w : world) (file_path : string) :
  files (parse_pdb file_path w).2 = files w ∧
  np_random (parse_pdb file_path w).2 = np_random w ∧
  heap w ⊆ heap (parse_pdb file_path w).2 ∧
  (∀ (a : ndarray) (v : nested),
     tolist (heap w) a = Some v → tolist (heap (parse_pdb file_path w).2) a = Some v) ∧
  (∀ e, (parse_pdb file_path w).1 = Raise e →
     (parse_pdb file_path w).2 = w ∧
     (e = FileNotFoundError ∧ files w !! file_path = None ∨
      e = ValueError ∧ is_Some (files w !! file_path))).
Proof.
  destruct (parse_pdb_world w file_path) as (h' & Hw & Hsub & Hraise).
  rewrite Hw. cbn. split; [done|]. split; [done|]. split; [done|].
  split; [intros a v; by apply tolist_mono|].
  intros e He. destruct (Hraise e He) as [-> Hcase]. split; [by destruct w|done].
Qed.

(** ** What the writer writes, and what it leaves *)



(** [save_pdb] on any array, where the path opens for writing: the outcome
    and the text left in the file, by what the array reads as. *)
Lemma save_pdb_run (w : world) (output_path : string) (C : ndarray) :
  open_failure w output_path = None →
  save_pdb output_path C w
  = (match tolist (heap w) C with
     | Some (Rows rows) =>
         if decide (Forall (fun r => (3 ≤ length r)%nat) rows)
         then Return tt else Raise IndexError
     | Some (Items []) => Return tt
     | Some (Items (_ :: _)) => Raise IndexError
     | None => Raise Stuck
     end,
     set_files (<[output_path := match tolist (heap w) C with
                                 | Some (Rows rows) => text_of_lines (atom_lines 0 rows)
                                 | _ => ""
                                 end]> (files w)) w).
Proof.
  intros Hopen. destruct (tolist (heap w) C) as [[xs|rows]|] eqn:Hread.
  - rewrite (save_pdb_run_items w output_path C xs Hopen Hread). by destruct xs.
  - by apply save_pdb_run_rows.
  - unfold save_pdb. erewrite bind_return by (by apply open_write_opens).
    erewrite bind_return by reflexivity.
    erewrite bind_raise; [done|]. cbn. by rewrite Hread.
Qed.

Lemma atom_lines_take (i : nat) (rows : list (list float64)) :
  atom_lines i (take 3 <$> rows) = atom_lines i rows.
Proof.
  revert i. induction rows as [|r rows IH]; intros i; [done|].
  destruct r as [|x [|y [|z r]]]; try done.
  rewrite fmap_cons. change (take 3 (x :: y :: z :: r)) with [x; y; z].
  cbn [atom_lines]. by rewrite IH.
Qed.

Lemma Forall_three_take (rows : list (list float64)) :
  Forall (fun r => (3 ≤ length r)%nat) (take 3 <$> rows)
  ↔ Forall (fun r => (3 ≤ length r)%nat) rows.
Proof.
  rewrite Forall_fmap. apply Forall_iff. intros r. cbn. rewrite length_take. lia.
Qed.




(** X9.  [save_pdb] writes the first three numbers of each row and nothing
    of the rest: two arrays of two axes in one store whose rows agree on
    their first three entries make the same call, with the same outcome and
    the same file. *)
Theorem save_pdb_first_three_columns (w : world) (output_path : string) (C C' : ndarray)
    (rows rows' : list (list float64)) :
  tolist (heap w) C = Some (Rows rows) →
  tolist (heap w) C' = Some (Rows rows') →
  take 3 <$> rows = take 3 <$> rows' →
  save_pdb output_path C w = save_pdb output_path C' w.
Proof.
  intros Hread Hread' Heq.
  destruct (open_failure w output_path) as [e|] eqn:Hopen;
    [by rewrite !(save_pdb_open_fails _ _ _ e Hopen)|].
  rewrite !save_pdb_run, Hread, Hread' by done.
  rewrite <- (atom_lines_take 0 rows), <- (atom_lines_take 0 rows'), Heq. f_equal.
  destruct (decide (Forall _ rows)) as [H|H], (decide (Forall _ rows')) as [H'|H'];
    try done; apply Forall_three_take in H || apply Forall_three_take in H';
    exfalso; [apply H'|apply H]; apply Forall_three_take; congruence.
Qed.

Lemma save_pdb_first_three_columns_witness :
  save_pdb output_pdb_path four_columns_array world_four_atoms
  = save_pdb output_pdb_path three_atoms_array world_four_atoms.
Proof.
  apply (save_pdb_first_three_columns world_four_atoms output_pdb_path
           four_columns_array three_atoms_array
           [[float_of_Z 0; float_of_Z 0; float_of_Z 0; float_of_Z 1];
            [float_of_Z 1; float_of_Z 1; float_of_Z 1; float_of_Z 2];
            [float_of_Z 2; float_of_Z 2; float_of_Z 2; float_of_Z 3]]
           [[float_of_Z 0; float_of_Z 0; float_of_Z 0];
            [float_of_Z 1; float_of_Z 1; float_of_Z 1];
            [float_of_Z 2; float_of_Z 2; float_of_Z 2]]).
  - vm_compute. reflexivity.
  - vm_compute. reflexivity.
  - reflexivity.
Defined.

(** ** The views of an array of one axis *)

(** X10.  On every readable array of one axis, whatever its length,
    [generate_views] raises [AxisError]: the flip along axis 1 has no such
    axis.  It raises after the permutation has been made: the random source
    has advanced by one shuffle of the elements; the files, the arrays there
    were and the argument are as they were. *)
Theorem generate_views_one_axis_raises (w : world) (C : ndarray) (xs : list float64) :
  tolist (heap w) C = Some (Items xs) →
  ∃ w',
    generate_views C w = (Raise AxisError, w') ∧
    np_random w' = (shuffle xs (np_random w)).2 ∧
    heap w ⊆ heap w' ∧
    files w' = files w ∧
    tolist (heap w') C = Some (Items xs).
Proof.
  intros Hread. destruct (tolist_Items_lay _ _ _ Hread) as (n & s & Hlay).
  destruct (new_1d_run (shuffle xs (np_random w)).1
              (set_np_random (shuffle xs (np_random w)).2 w)) as (l & Hnew & Hfresh & _).
  eexists. split.
  { unfold generate_views, np_random_permutation.
    erewrite bind_return; cycle 1.
    { erewrite bind_return by reflexivity.
      erewrite bind_return by (rewrite Hread; reflexivity). cbn beta iota.
      erewrite bind_return by apply np_random_run_spec. exact Hnew. }
    erewrite bind_raise by (by eapply np_flip_axis1_1d). reflexivity. }
  cbn in *. split; [done|]. split; [by apply insert_subseteq|]. split; [done|].
  eapply tolist_mono; [|done]. by apply insert_subseteq.
Qed.

Lemma generate_views_one_axis_raises_witness :
  ∃ w',
    generate_views twelve_numbers_array world_four_atoms = (Raise AxisError, w') ∧
    np_random w' = (shuffle (concat four_atoms) (np_random world_four_atoms)).2 ∧
    heap world_four_atoms ⊆ heap w' ∧
    files w' = files world_four_atoms ∧
    tolist (heap w') twelve_numbers_array = Some (Items (concat four_atoms)).
Proof.
  apply (generate_views_one_axis_raises world_four_atoms twelve_numbers_array
           (concat four_atoms)).
  vm_compute. reflexivity.
Defined.

(** ** The data preparation, end to end *)

(** [training_data] on a Coordinate Set: the stacked views and the tiled
    target. *)
Lemma training_data_run (w : world) (C : ndarray) (rows : list (list float64)) :
  coordinate_set (heap w) C rows →
  ∃ input_data output_data w' rows2,
    training_data C w = (Return (input_data, output_data), w') ∧
    heap w ⊆ heap w' ∧ files w' = files w ∧
    shape input_data = [(3 * length rows)%nat; 3%nat] ∧
    shape output_data = [(3 * length rows)%nat; 3%nat] ∧
    rows2 ≡ₚ rows ∧
    tolist (heap w') input_data = Some (Rows (rows ++ rows2 ++ (reverse <$> rows))) ∧
    tolist (heap w') output_data = Some (Rows (rows ++ rows ++ rows)).
Proof.
  intros Hcs. pose proof Hcs as [Hshape _].
  apply coordinate_set_inv in Hcs as ((s0 & s1 & Hlay) & Hread & _).
  destruct (generate_views_2d C w _ _ s0 s1 rows Hlay Hread)
    as (v2 & v3 & w1 & rows2 & Hviews & Hsub1 & Hf1 & _ & _ & Hs2 & Hs3 & Hperm & Hv2 & Hv3 & Hv1).
  destruct (np_vstack_three C v2 v3 w1 _ _ rows rows2 (reverse <$> rows)
              Hshape Hs2 Hs3 Hv1 Hv2 Hv3)
    as (inp & w2 & Hstack & Hsub2 & Hf2 & Hsi & Hri).
  destruct (np_tile_three_rows C w2 _ _ rows Hshape (tolist_mono _ _ _ _ Hsub2 Hv1))
    as (out & w3 & Htile & Hsub3 & Hf3 & Hso & Hro).
  exists inp, out, w3, rows2. split.
  { unfold training_data. erewrite bind_return by exact Hviews. cbn beta iota.
    erewrite bind_return by exact Hstack. erewrite bind_return by exact Htile. done. }
  split; [by do 2 (etrans; [done|])|]. split; [congruence|].
  split; [done|]. split; [done|]. split; [done|]. split; [by eapply tolist_mono|done].
Qed.

(** X11.  The outcome of [main], up to the call of [train_model], by the
    input file alone: no file at the input path ends it with
    [FileNotFoundError]; an atom record with a field that is not a number
    ends it with [ValueError]; a file without atom records ends it with the
    [AxisError] of the flip; in these cases no training data are built.  In
    every other case it reaches the training with a stacked input and a
    tiled target of 3N rows of 3 numbers for the N atom records, the target
    holding the rows read from the file three times over, and the files
    untouched. *)
Theorem main_outcome (w : world) :
  match files w !! input_pdb_path with
  | None => main w = (Raise FileNotFoundError, w)
  | Some text =>
      match mapM coordinates_of (filter (fun l => atom_record l) (readlines text)) with
      | None => main w = (Raise ValueError, w)
      | Some [] => (main w).1 = Raise AxisError
      | Some rows =>
          ∃ input_data output_data w' rows2,
            main w = (Return (input_data, output_data), w') ∧
            files w' = files w ∧
            shape input_data = [(3 * length rows)%nat; 3%nat] ∧
            shape output_data = [(3 * length rows)%nat; 3%nat] ∧
            rows2 ≡ₚ rows ∧
            tolist (heap w') input_data
            = Some (Rows (rows ++ rows2 ++ (reverse <$> rows))) ∧
            tolist (heap w') output_data = Some (Rows (rows ++ rows ++ rows))
      end
  end.
Proof.
  unfold main. destruct (files w !! input_pdb_path) as [text|] eqn:Hfile.
  2: { erewrite bind_raise; [done|]. unfold parse_pdb.
       erewrite bind_raise; [done|]. unfold open_read. by rewrite Hfile. }
  pose proof (parse_pdb_run w input_pdb_path text Hfile) as Hrun.
  destruct (mapM _ _) as [rows|] eqn:Hrows; [|by erewrite bind_raise by exact Hrun].
  destruct Hrun as (C & w1 & Hrun & _ & Hfiles & _ & Hread).
  erewrite bind_return by exact Hrun.
  destruct rows as [|r rows].
  - destruct Hread as [_ Hread].
    destruct (tolist_Items_lay _ _ _ Hread) as (n & s & Hlay).
    destruct (generate_views_1d C w1 n s [] Hlay Hread) as (w2 & Hviews & _).
    unfold training_data. by erewrite bind_raise by exact Hviews.
  - destruct (training_data_run w1 C (r :: rows) Hread)
      as (inp & out & w' & rows2 & Htrain & _ & Hf & Hsi & Hso & Hperm & Hri & Hro).
    exists inp, out, w', rows2. split; [done|]. split; [congruence|]. done.
Qed.

(** ** The layout of a record line *)

(** X12.  The columns of a record line of [save_pdb], for an atom number of
    four digits at most and coordinates that fit their fields: the line
    holds 77 characters and the newline, and each of the three column
    ranges [parse_pdb] slices (31-38, 39-46, 47-54) holds one 7-character
    coordinate field followed by one space. *)
Theorem atom_line_columns (i : nat) (x y z : float64) :
  Z.of_nat i + 1 < 10000 → narrow x = true → narrow y = true → narrow z = true →
  String.length (atom_line i x y z) = 78%nat ∧
  columns (atom_line i x y z) 31 38 = format_f x 7 3 +:+ " " ∧
  columns (atom_line i x y z) 39 46 = format_f y 7 3 +:+ " " ∧
  columns (atom_line i x y z) 47 54 = format_f z 7 3 +:+ " ".
Proof.
  intros Hi Hx Hy Hz.
  pose proof (length_format_d (Z.of_nat i + 1) ltac:(lia)) as Hlen.
  rewrite (proj2 (Z.ltb_lt _ _) Hi) in Hlen.
  pose proof (length_format_f_narrow x Hx) as Lx.
  pose proof (length_format_f_narrow y Hy) as Ly.
  pose proof (length_format_f_narrow z Hz) as Lz.
  unfold columns, atom_line.
  set (num := format_d (Z.of_nat i + 1) 4) in *.
  set (tail := "  1.00  0.00           C" +:+ String newline "").
  split; [by rewrite !length_append, Hlen, Lx, Ly, Lz|].
  split; [|split].
  - replace ("ATOM  " +:+ num +:+ "  CA  ALA A   1     " +:+ format_f x 7 3 +:+ " " +:+
             format_f y 7 3 +:+ " " +:+ format_f z 7 3 +:+ tail)
      with (("ATOM  " +:+ num +:+ "  CA  ALA A   1     ") +:+ format_f x 7 3 +:+
            String " " (format_f y 7 3 +:+ " " +:+ format_f z 7 3 +:+ tail))
      by (by rewrite !append_assoc).
    apply substring_field; [|by rewrite Lx]. rewrite !length_append, Hlen. done.
  - replace ("ATOM  " +:+ num +:+ "  CA  ALA A   1     " +:+ format_f x 7 3 +:+ " " +:+
             format_f y 7 3 +:+ " " +:+ format_f z 7 3 +:+ tail)
      with (("ATOM  " +:+ num +:+ "  CA  ALA A   1     " +:+ format_f x 7 3 +:+ " ") +:+
            format_f y 7 3 +:+ String " " (format_f z 7 3 +:+ tail))
      by (by rewrite !append_assoc).
    apply substring_field; [|by rewrite Ly]. rewrite !length_append, Hlen, Lx. done.
  - replace ("ATOM  " +:+ num +:+ "  CA  ALA A   1     " +:+ format_f x 7 3 +:+ " " +:+
             format_f y 7 3 +:+ " " +:+ format_f z 7 3 +:+ tail)
      with (("ATOM  " +:+ num +:+ "  CA  ALA A   1     " +:+ format_f x 7 3 +:+ " " +:+
             format_f y 7 3 +:+ " ") +:+
            format_f z 7 3 +:+
            String " " (" 1.00  0.00           C" +:+ String newline ""))
      by (by rewrite !append_assoc).
    apply substring_field; [|by rewrite Lz]. rewrite !length_append, Hlen, Lx, Ly. done.
Qed.

Lemma atom_line_columns_witness :
  String.length (atom_line 0 (float_of_Z 1) (float_of_Z 2) (float_of_Z 3)) = 78%nat ∧
  columns (atom_line 0 (float_of_Z 1) (float_of_Z 2) (float_of_Z 3)) 31 38
  = format_f (float_of_Z 1) 7 3 +:+ " " ∧
  columns (atom_line 0 (float_of_Z 1) (float_of_Z 2) (float_of_Z 3)) 39 46
  = format_f (float_of_Z 2) 7 3 +:+ " " ∧
  columns (atom_line 0 (float_of_Z 1) (float_of_Z 2) (float_of_Z 3)) 47 54
  = format_f (float_of_Z 3) 7 3 +:+ " ".
Proof.
  apply (atom_line_columns 0 (float_of_Z 1) (float_of_Z 2) (float_of_Z 3));
    vm_compute; reflexivity.
Defined.

(** ** What the split leaves *)

Lemma validate_shuffle_split_raises (n : nat) (test_size : float64) (e : exn) :
  validate_shuffle_split n test_size = Raise e → e = ValueError.
Proof.
  unfold validate_shuffle_split. destruct (ceil _); [|congruence].
  destruct (_ <=? _); congruence.
Qed.

(** The world a seeded split leaves: the store extended by the four parts,
    nothing else; unchanged when it raises, which it does with
    [ValueError] only. *)
Lemma train_test_split_world (RandomState : Z → rng) (seed : Z) (test_size : float64)
    (X y : ndarray) (w : world) (xs ys : list (list float64)) :
  tolist (heap w) X = Some (Rows xs) →
  tolist (heap w) y = Some (Rows ys) →
  ∃ h', (train_test_split RandomState X y test_size (Some seed) w).2 = set_heap h' w ∧
    heap w ⊆ h' ∧
    ∀ e, (train_test_split RandomState X y test_size (Some seed) w).1 = Raise e →
      e = ValueError ∧ h' = heap w.
Proof.
  intros HX Hy. unfold train_test_split.
  destruct (negb _).
  { exists (heap w). split; [by destruct w|]. split; [done|]. by intros e [= <-]. }
  destruct (validate_shuffle_split (len X) test_size) as [[n_train n_test]|e'] eqn:Hval.
  2: { erewrite bind_raise by reflexivity.
       exists (heap w). split; [by destruct w|]. split; [done|]. intros e [= <-].
       split; [|done]. by eapply validate_shuffle_split_raises. }
  erewrite bind_return by reflexivity. cbn beta iota.
  erewrite bind_return by reflexivity.
  destruct (split_permutation _ n_train n_test) as [train test].
  destruct (index_rows_2d X train w xs HX) as (a1 & l1 & Hrun1 & Hf1 & Hr1).
  set (h1 := <[l1 := concat (take_rows xs train)]> (heap w)) in *.
  assert (heap w ⊆ h1) as Hs1 by (by apply insert_subseteq).
  destruct (index_rows_2d X test (set_heap h1 w) xs (tolist_mono _ _ _ _ Hs1 HX))
    as (a2 & l2 & Hrun2 & Hf2 & Hr2).
  simpl in Hrun2, Hf2, Hr2.
  set (h2 := <[l2 := concat (take_rows xs test)]> h1) in *.
  assert (h1 ⊆ h2) as Hs2 by (by apply insert_subseteq).
  destruct (index_rows_2d y train (set_heap h2 (set_heap h1 w)) ys)
    as (a3 & l3 & Hrun3 & Hf3 & Hr3).
  { simpl. eapply tolist_mono; [exact Hs2|]. by eapply tolist_mono. }
  simpl in Hrun3, Hf3, Hr3.
  set (h3 := <[l3 := concat (take_rows ys train)]> h2) in *.
  assert (h2 ⊆ h3) as Hs3 by (by apply insert_subseteq).
  destruct (index_rows_2d y test (set_heap h3 (set_heap h2 (set_heap h1 w))) ys)
    as (a4 & l4 & Hrun4 & Hf4 & Hr4).
  { simpl. eapply tolist_mono; [exact Hs3|]. eapply tolist_mono; [exact Hs2|].
    by eapply tolist_mono. }
  simpl in Hrun4, Hf4, Hr4.
  set (h4 := <[l4 := concat (take_rows ys test)]> h3) in *.
  assert (h3 ⊆ h4) as Hs4 by (by apply insert_subseteq).
  erewrite bind_return by exact Hrun1.
  erewrite bind_return by exact Hrun2.
  erewrite bind_return by exact Hrun3.
  erewrite bind_return by exact Hrun4.
  exists h4. split; [done|]. split; [|done].
  etrans; [exact Hs1|]. etrans; [exact Hs2|]. by etrans.
Qed.

(** X13.  The split of [train_model] changes nothing but the store of
    arrays, which it only extends (by the four parts): the files and the
    global random source are left as they were (the seed makes a generator of
    its own), and so is every array there is, the two arguments included.
    When it raises, it raises [ValueError] and has changed nothing. *)
Theorem train_model_frame (RandomState : Z → rng) (w : world) (X y : ndarray)
    (xs ys : list (list float64)) :
  tolist (heap w) X = Some (Rows xs) →
  tolist (heap w) y = Some (Rows ys) →
  files (train_model RandomState X y w).2 = files w ∧
  np_random (train_model RandomState X y w).2 = np_random w ∧
  heap w ⊆ heap (train_model RandomState X y w).2 ∧
  tolist (heap (train_model RandomState X y w).2) X = Some (Rows xs) ∧
  tolist (heap (train_model RandomState X y w).2) y = Some (Rows ys) ∧
  (∀ e, (train_model RandomState X y w).1 = Raise e →
     e = ValueError ∧ (train_model RandomState X y w).2 = w).
Proof.
  intros HX Hy. unfold train_model.
  destruct (train_test_split_world RandomState 42 test_size_02 X y w xs ys HX Hy)
    as (h' & Hw & Hsub & Hraise).
  rewrite Hw. cbn. split; [done|]. split; [done|]. split; [done|].
  split; [by eapply tolist_mono|]. split; [by eapply tolist_mono|].
  intros e He. destruct (Hraise e He) as [-> ->]. split; [done|by destruct w].
Qed.

Lemma train_model_frame_witness :
  files (train_model some_RandomState four_atoms_array four_atoms_array world_four_atoms).2
  = files world_four_atoms ∧
  np_random (train_model some_RandomState four_atoms_array four_atoms_array
               world_four_atoms).2
  = np_random world_four_atoms ∧
  heap world_four_atoms
  ⊆ heap (train_model some_RandomState four_atoms_array four_atoms_array
            world_four_atoms).2.
Proof.
  destruct (train_model_frame some_RandomState world_four_atoms four_atoms_array
              four_atoms_array four_atoms four_atoms)
    as (Hfiles & Hrandom & Hheap & _); [vm_compute; reflexivity..|].
  split; [exact Hfiles|split; [exact Hrandom|exact Hheap]].
Defined.

(** ** From the file to the split *)

(** X14.  The split as [main] reaches it, for an input file with N > 0 atom
    records, all well formed: it is the split of the 3N stacked rows (the
    rows of the file, a permutation of them, and the rows reversed) against
    the 3N target rows (the rows of the file three times over).  The two
    always agree in length, so the only exception the split can raise in
    [main] is the one of the sizes, and the parts pair input row [k] with
    target row [k]. *)
Theorem main_split_outcome (RandomState : Z → rng) (w : world) (text : string)
    (rows : list (list float64)) :
  files w !! input_pdb_path = Some text →
  mapM coordinates_of (filter (fun l => atom_record l) (readlines text)) = Some rows →
  rows ≠ [] →
  ∃ rows2,
    rows2 ≡ₚ rows ∧
    read_split (main_to_split RandomState w)
    = split_of_data RandomState 42 test_size_02
        (rows ++ rows2 ++ (reverse <$> rows)) (rows ++ rows ++ rows) ∧
    (∀ e, read_split (main_to_split RandomState w) = Raise e →
       validate_shuffle_split (3 * length rows) test_size_02 = Raise e) ∧
    (∀ parts, read_split (main_to_split RandomState w) = Return parts →
       ∃ train test,
         train ++ test ≡ₚ seq 0 (3 * length rows) ∧
         parts = (Some (Rows (take_rows (rows ++ rows2 ++ (reverse <$> rows)) train)),
                  Some (Rows (take_rows (rows ++ rows2 ++ (reverse <$> rows)) test)),
                  Some (Rows (take_rows (rows ++ rows ++ rows) train)),
                  Some (Rows (take_rows (rows ++ rows ++ rows) test)))).
Proof.
  intros Hfile Hrows Hne.
  destruct (parse_pdb_coordinate_set w input_pdb_path text rows Hfile Hrows Hne)
    as (C & w1 & Hparse & Hcs).
  destruct (training_data_run w1 C rows Hcs)
    as (inp & out & w2 & rows2 & Htrain & _ & _ & _ & _ & Hperm & Hri & Hro).
  exists rows2. split; [done|].
  assert (read_split (main_to_split RandomState w)
          = split_of_data RandomState 42 test_size_02
              (rows ++ rows2 ++ (reverse <$> rows)) (rows ++ rows ++ rows)) as ->.
  { unfold main_to_split, main.
    erewrite bind_return by (erewrite bind_return by exact Hparse; exact Htrain).
    cbn beta iota. unfold train_model. by apply train_test_split_seeded. }
  split; [done|].
  assert (length (rows ++ rows2 ++ (reverse <$> rows)) = (3 * length rows)%nat) as Hlx
    by (rewrite !length_app, length_fmap, (Permutation_length Hperm); lia).
  assert (length (rows ++ rows ++ rows) = (3 * length rows)%nat) as Hly
    by (rewrite !length_app; lia).
  unfold split_of_data. rewrite Hlx, Hly, Nat.eqb_refl. cbn [negb].
  destruct (validate_shuffle_split _ _) as [[n_train n_test]|e'] eqn:Hval.
  - pose proof (shuffle_Permutation (seq 0 (3 * length rows)) (RandomState 42)) as Hp.
    apply validate_shuffle_split_sizes in Hval as [_ Hsum].
    destruct (split_permutation_partition _ _ n_train n_test Hp Hsum) as (Hpart & _ & _).
    destruct (split_permutation _ n_train n_test) as [train test].
    split; [done|]. intros parts [= <-]. by exists train, test.
  - split; [by intros e [= <-]|done].
Qed.

Lemma main_split_outcome_witness :
  ∃ rows2,
    rows2 ≡ₚ four_atoms ∧
    read_split (main_to_split some_RandomState world_four_atoms)
    = split_of_data some_RandomState 42 test_size_02
        (four_atoms ++ rows2 ++ (reverse <$> four_atoms))
        (four_atoms ++ four_atoms ++ four_atoms).
Proof.
  pose proof (main_split_outcome some_RandomState world_four_atoms four_atoms_text
                four_atoms) as H.
  assert (files world_four_atoms !! input_pdb_path = Some four_atoms_text) as H1
    by (vm_compute; reflexivity).
  assert (mapM coordinates_of
            (filter (fun l => atom_record l) (readlines four_atoms_text))
          = Some four_atoms) as H2 by (vm_compute; reflexivity).
  assert (four_atoms ≠ []) as H3 by discriminate.
  destruct (H H1 H2 H3) as (rows2 & Hperm & Hsplit & _).
  exists rows2. split; [exact Hperm|exact Hsplit].
Defined.
